(** * Cortex-M / STM32 MCU composition: a shallow embedding

    The development follows two source files:

    - [hw/arm/cortexm-mcu.c]: the generic Cortex-M layer
      ([cortexm_mcu_realize], [cortexm_mcu_memory_regions_create],
      [cortexm_mcu_image_load], [cortexm_mcu_init], [cortexm_reset]);
    - [hw/cortexm/stm32/mcu.c]: the STM32 vendor layer
      ([create_gpio], [create_usart], [stm32_mcu_realize_callback],
      [stm32_mcu_reset_callback],
      [stm32_mcu_memory_regions_create_callback]).

    C integers are modelled as [Z] with the conversions between [int],
    [uint32_t] and [uint64_t] written out.  Calls into the rest of the
    emulator are recorded, in program order, in a log of [event]s; the
    calls whose result the source inspects take that result from a record
    of [Externals].  [exit(1)], [hw_error] and a failed [assert] end the
    run with [Fatal]. *)

From Stdlib Require Import ZArith List String Ascii Bool Lia DecimalString.
From stdpp Require Import base list.
Import ListNotations.
Open Scope Z_scope.

(** ** Machine integers *)

(** Value of a 32-bit pattern read as [uint32_t]. *)
Definition wrap_u32 (z : Z) : Z := z mod 2 ^ 32.

(** Value of a 64-bit pattern read as [uint64_t] (also [hwaddr]). *)
Definition wrap_u64 (z : Z) : Z := z mod 2 ^ 64.

(** Conversion to [int] (32-bit two's complement, as GCC and Clang do). *)
Definition to_int (z : Z) : Z := (z + 2 ^ 31) mod 2 ^ 32 - 2 ^ 31.

Definition INT_MIN : Z := - 2 ^ 31.
Definition INT_MAX : Z := 2 ^ 31 - 1.

(** [printf]'s [%d] for an [int]. *)
Definition fmt_d (z : Z) : string := NilZero.string_of_int (Z.to_int z).

(** [snprintf (buf, size, ...)]: at most [size - 1] characters are kept. *)
Definition snprintf (size : nat) (s : string) : string :=
  substring 0 (size - 1) s.

(** ** Handles and values exchanged with the emulator *)

Inductive MemoryRegionKind :=
| MR_RAM
| MR_ALIAS (orig : string) (offset : Z).   (* orig: the aliased region's name *)

(** A [MemoryRegion] after [memory_region_init_ram] or
    [memory_region_init_alias]; [mr_size] is the [uint64_t size]. *)
Record MemoryRegion := mkMemoryRegion {
  mr_name : string;
  mr_kind : MemoryRegionKind;
  mr_size : Z;
  mr_readonly : bool
}.

Definition memory_region_init_ram (name : string) (size : Z) : MemoryRegion :=
  mkMemoryRegion name MR_RAM (wrap_u64 size) false.

Definition memory_region_init_alias
  (name : string) (orig : string) (offset size : Z) : MemoryRegion :=
  mkMemoryRegion name (MR_ALIAS orig (wrap_u64 offset)) (wrap_u64 size) false.

Definition memory_region_set_readonly
  (mr : MemoryRegion) (readonly : bool) : MemoryRegion :=
  mkMemoryRegion (mr_name mr) (mr_kind mr) (mr_size mr) readonly.

(** A device or object handle: what [DEVICE(...)] of a created child is. *)
Inductive DeviceState :=
| Dev_qdev (type : string)             (* qdev_create (NULL, type) *)
| Dev_object (name type : string)      (* cm_object_new (container, name, type) *)
| Dev_gpio (index : Z).                (* stm32_gpio_create (container, index) *)

Inductive ARMCPU := ARMCPU_of (cpu_model : string).

Inductive CharDriverState := Chr (name backend : string).

Inductive Error := Error_of (msg : string).

(** An NVIC input line, [qdev_get_gpio_in (nvic, i)]. *)
Inductive qemu_irq := Irq_in (dev : DeviceState) (n : Z).

(** ** The log of calls and the error monad *)

Inductive event :=
| E_cpu_arm_init (cpu_model : string)
| E_memory_region_add_subregion (offset : Z) (mr : MemoryRegion)
| E_qdev_create (type : string)
| E_qdev_prop_set_uint32 (dev : DeviceState) (prop : string) (v : Z)
| E_qdev_init_nofail (dev : DeviceState)
| E_sysbus_mmio_map (dev : DeviceState) (n : Z) (addr : Z)
| E_sysbus_connect_irq (dev : DeviceState) (n : Z)
| E_itm_realize
| E_load_elf (filename : string)
| E_load_image_targphys (filename : string) (addr max_sz : Z)
| E_qemu_register_reset
| E_bitband_init (name : string) (address : Z)
| E_object_new (name type : string)
| E_object_property_set_int (obj : DeviceState) (v : Z) (prop : string)
| E_object_realize (obj : DeviceState)
| E_gpio_create (index : Z)
| E_qemu_chr_new (name backend : string)
| E_qdev_prop_set_chr (dev : DeviceState) (chr : CharDriverState)
| E_qdev_prop_set_ptr (dev : DeviceState) (prop : string)
| E_parent_reset (type_name : string)
| E_device_reset (dev : DeviceState)
| E_rom_reset
| E_cpu_reset (cpu : ARMCPU).

Inductive result (A : Type) :=
| Ok (a : A)
| Fatal (msg : string).
Arguments Ok {A} a.
Arguments Fatal {A} msg.

(** A computation: the calls it made, and how it ended. *)
Definition M (A : Type) : Type := (list event * result A)%type.

Definition ret {A : Type} (a : A) : M A := ([], Ok a).

Definition calls {A : Type} (m : M A) : list event := fst m.
Definition outcome {A : Type} (m : M A) : result A := snd m.

(** Sequencing: the continuation runs only after a normal return, and
    its calls follow those already made. *)
Definition bind {A B : Type} (m : M A) (k : A -> M B) : M B :=
  match outcome m with
  | Ok a => (calls m ++ calls (k a), outcome (k a))
  | Fatal msg => (calls m, Fatal msg)
  end.

Definition emit (e : event) : M unit := ([e], Ok tt).

(** [error_report (msg); exit (1)], [hw_error (msg)], a failed [assert]. *)
Definition fatal {A : Type} (msg : string) : M A := ([], Fatal msg).

Declare Scope cm_scope.
Delimit Scope cm_scope with cm.
Notation "x <- m ;; k" := (bind m (fun x => k))
  (at level 100, m at next level, right associativity) : cm_scope.
Notation "m ;;; k" := (bind m (fun _ => k))
  (at level 100, right associativity) : cm_scope.

(** ** Core models and capabilities ([hw/arm/cortexm.h]) *)

(** The enumeration [cortexm_models_t]; [CORTEX_M_other] stands for any
    other value of the underlying integer, which reaches the [default:]
    branch of the switch in [cortexm_mcu_realize]. *)
Inductive cortexm_models_t :=
| CORTEX_M0 | CORTEX_M0PLUS | CORTEX_M1 | CORTEX_M3
| CORTEX_M4 | CORTEX_M4F | CORTEX_M7 | CORTEX_M7F
| CORTEX_M_other (n : Z).

Inductive cortexm_fpu_type_t :=
| CORTEX_M_FPU_TYPE_NONE
| CORTEX_M_FPU_TYPE_FPV4_SP_D16
| CORTEX_M_FPU_TYPE_FPV5_SP_D16.

Module Cap.
(** [CortexMCapabilities], the fields the two files read or write.  The
    numeric fields are held as [Z]; the code reads them into [int]
    variables, which [to_int] renders. *)
Record t := mk {
  cortexm_model : cortexm_models_t;
  flash_size_kb : Z;
  sram_size_kb : Z;
  has_mpu : bool;
  has_fpu : bool;
  fpu_type : cortexm_fpu_type_t;
  has_itm : bool;
  num_irq : Z
}.

Definition set_cortexm_model (m : cortexm_models_t) (c : t) : t :=
  mk m (flash_size_kb c) (sram_size_kb c) (has_mpu c) (has_fpu c)
     (fpu_type c) (has_itm c) (num_irq c).

Definition set_has_mpu (b : bool) (c : t) : t :=
  mk (cortexm_model c) (flash_size_kb c) (sram_size_kb c) b (has_fpu c)
     (fpu_type c) (has_itm c) (num_irq c).

Definition set_has_fpu (b : bool) (c : t) : t :=
  mk (cortexm_model c) (flash_size_kb c) (sram_size_kb c) (has_mpu c) b
     (fpu_type c) (has_itm c) (num_irq c).

Definition set_fpu_type (f : cortexm_fpu_type_t) (c : t) : t :=
  mk (cortexm_model c) (flash_size_kb c) (sram_size_kb c) (has_mpu c)
     (has_fpu c) f (has_itm c) (num_irq c).
End Cap.

Module CM.
(** [CortexMState].  [sram_size_kb] and [flash_size_kb] are the
    [uint32_t] properties "sram-sizeK" and "flash-sizeK": on entry to
    realize they hold the overrides (0 for none), afterwards the resolved
    sizes.  [cpu_model] holds the [--cpu] override on entry and the
    resolved identifier afterwards.  [capabilities] is the object the
    pointer designates; realize writes through it.  [nvic] is the field
    [create_usart] hands to the serial ports; no function of
    [cortexm-mcu.c] assigns it. *)
Record t := mk {
  capabilities : option Cap.t;
  kernel_filename : option string;
  cpu_model : option string;
  display_model : option string;
  sram_size_kb : Z;
  flash_size_kb : Z;
  num_irq : Z;
  cpu : option ARMCPU;
  nvic : option DeviceState;
  pic : list qemu_irq;
  flash_mem : option MemoryRegion;
  sram_mem : option MemoryRegion;
  hack_mem : option MemoryRegion
}.

Definition set_capabilities (c : Cap.t) (s : t) : t :=
  mk (Some c) (kernel_filename s) (cpu_model s) (display_model s)
     (sram_size_kb s) (flash_size_kb s) (num_irq s) (cpu s) (nvic s) (pic s)
     (flash_mem s) (sram_mem s) (hack_mem s).

Definition set_models (cpu_model' display_model' : string) (s : t) : t :=
  mk (capabilities s) (kernel_filename s) (Some cpu_model')
     (Some display_model') (sram_size_kb s) (flash_size_kb s) (num_irq s)
     (cpu s) (nvic s) (pic s) (flash_mem s) (sram_mem s) (hack_mem s).

Definition set_kernel_filename (f : string) (s : t) : t :=
  mk (capabilities s) (Some f) (cpu_model s) (display_model s)
     (sram_size_kb s) (flash_size_kb s) (num_irq s) (cpu s) (nvic s) (pic s)
     (flash_mem s) (sram_mem s) (hack_mem s).

Definition set_cpu_model (m : string) (s : t) : t :=
  mk (capabilities s) (kernel_filename s) (Some m) (display_model s)
     (sram_size_kb s) (flash_size_kb s) (num_irq s) (cpu s) (nvic s) (pic s)
     (flash_mem s) (sram_mem s) (hack_mem s).

Definition set_sram_size_kb (v : Z) (s : t) : t :=
  mk (capabilities s) (kernel_filename s) (cpu_model s) (display_model s)
     (wrap_u32 v) (flash_size_kb s) (num_irq s) (cpu s) (nvic s) (pic s)
     (flash_mem s) (sram_mem s) (hack_mem s).

Definition set_flash_size_kb (v : Z) (s : t) : t :=
  mk (capabilities s) (kernel_filename s) (cpu_model s) (display_model s)
     (sram_size_kb s) (wrap_u32 v) (num_irq s) (cpu s) (nvic s) (pic s)
     (flash_mem s) (sram_mem s) (hack_mem s).

Definition set_num_irq (v : Z) (s : t) : t :=
  mk (capabilities s) (kernel_filename s) (cpu_model s) (display_model s)
     (sram_size_kb s) (flash_size_kb s) v (cpu s) (nvic s) (pic s)
     (flash_mem s) (sram_mem s) (hack_mem s).

Definition set_cpu (c : ARMCPU) (s : t) : t :=
  mk (capabilities s) (kernel_filename s) (cpu_model s) (display_model s)
     (sram_size_kb s) (flash_size_kb s) (num_irq s) (Some c) (nvic s) (pic s)
     (flash_mem s) (sram_mem s) (hack_mem s).

Definition set_pic (p : list qemu_irq) (s : t) : t :=
  mk (capabilities s) (kernel_filename s) (cpu_model s) (display_model s)
     (sram_size_kb s) (flash_size_kb s) (num_irq s) (cpu s) (nvic s) p
     (flash_mem s) (sram_mem s) (hack_mem s).

Definition set_mems (f r h : MemoryRegion) (s : t) : t :=
  mk (capabilities s) (kernel_filename s) (cpu_model s) (display_model s)
     (sram_size_kb s) (flash_size_kb s) (num_irq s) (cpu s) (nvic s) (pic s)
     (Some f) (Some r) (Some h).
End CM.

(** The two virtual functions of [CortexMClass]. *)
Record CortexMClass := mkCortexMClass {
  memory_regions_create : CM.t -> M CM.t;
  image_load : CM.t -> M unit
}.

(** What the code reads back from the emulator. *)
Record Externals := mkExternals {
  (* cpu_arm_init: NULL when the model is unknown to the CPU factory *)
  cpu_arm_init : string -> option ARMCPU;
  (* setting "realized" on the ITM object: the error, if any *)
  itm_realize : option Error;
  qtest_enabled : bool;
  with_gdb : bool;
  (* load_elf: the image size, negative on failure *)
  load_elf : string -> Z;
  (* load_image_targphys (filename, addr, max_sz): size, negative on failure *)
  load_image_targphys : string -> Z -> Z -> Z;
  (* sysemu.h *)
  MAX_SERIAL_PORTS : Z;
  serial_hds : Z -> option CharDriverState;
  (* qemu_chr_new (label, filename, NULL): NULL on failure *)
  qemu_chr_new : string -> string -> option CharDriverState
}.

(** [MachineState], the two fields [cortexm_mcu_init] reads. *)
Record MachineState := mkMachineState {
  machine_kernel_filename : option string;
  machine_cpu_model : option string
}.

Open Scope cm_scope.
Open Scope string_scope.
Open Scope list_scope.
Open Scope Z_scope.

(** ** [hw/arm/cortexm-mcu.c] *)

Definition TYPE_BITBAND : string := "ARM,bitband-memory".
Definition DEFAULT_NUM_IRQ : Z := 256.
Definition BITBAND_OFFSET : Z := 0x02000000.

(** [cortexm_bitband_init (uint32_t address)], lines 55-65. *)
Definition cortexm_bitband_init (address : Z) : M unit :=
  let address := wrap_u32 address in
  (* Make address a multiple of 32MB *)
  let address := wrap_u32 (Z.land address (Z.lnot (BITBAND_OFFSET - 1))) in
  emit (E_qdev_create TYPE_BITBAND) ;;;
  let dev := Dev_qdev TYPE_BITBAND in
  emit (E_qdev_prop_set_uint32 dev "base" address) ;;;
  emit (E_qdev_init_nofail dev) ;;;
  emit (E_sysbus_mmio_map dev 0 (wrap_u32 (address + BITBAND_OFFSET))).

(** The [--cpu] override of [cortexm_mcu_realize], lines 132-160: the
    chain of [strcmp]s on [cpu_model_arg]. *)
Definition cpu_model_override (cpu_model_arg : string) (c : Cap.t) : M Cap.t :=
  if String.eqb cpu_model_arg "cortex-m0" then
    ret (Cap.set_cortexm_model CORTEX_M0 c)
  else if String.eqb cpu_model_arg "cortex-m0p" then
    ret (Cap.set_cortexm_model CORTEX_M0PLUS c)
  else if String.eqb cpu_model_arg "cortex-m1" then
    ret (Cap.set_cortexm_model CORTEX_M1 c)
  else if String.eqb cpu_model_arg "cortex-m3" then
    ret (Cap.set_cortexm_model CORTEX_M3 c)
  else if String.eqb cpu_model_arg "cortex-m4" then
    ret (Cap.set_has_mpu false (Cap.set_cortexm_model CORTEX_M4 c))
  else if String.eqb cpu_model_arg "cortex-m4f" then
    ret (Cap.set_has_mpu true (Cap.set_cortexm_model CORTEX_M4F c))
  else if String.eqb cpu_model_arg "cortex-m7" then
    ret (Cap.set_has_mpu false (Cap.set_cortexm_model CORTEX_M7 c))
  else if String.eqb cpu_model_arg "cortex-m7f" then
    ret (Cap.set_has_mpu true (Cap.set_cortexm_model CORTEX_M7F c))
  else
    fatal ("Illegal --cpu " ++ cpu_model_arg ++ ", only cortex-m* supported.").

(** What the switch on [cortexm_model] leaves behind. *)
Record Hardwired := mkHardwired {
  hw_cpu_model : string;
  hw_display_model : string;
  hw_max_num_irq : Z;
  hw_capabilities : Cap.t
}.

Definition no_fpu (c : Cap.t) : Cap.t :=
  Cap.set_fpu_type CORTEX_M_FPU_TYPE_NONE (Cap.set_has_fpu false c).

Definition with_fpu (f : cortexm_fpu_type_t) (c : Cap.t) : Cap.t :=
  Cap.set_fpu_type f (Cap.set_has_fpu true c).

(** "Some capabilities are hard-wired": the switch of
    [cortexm_mcu_realize], lines 165-234 ([max_num_irq] starts at 496). *)
Definition hardwired (c : Cap.t) : M Hardwired :=
  match Cap.cortexm_model c with
  | CORTEX_M0 =>
      ret (mkHardwired "cortex-m0" "Cortex-M0" 496
             (no_fpu (Cap.set_has_mpu false c)))
  | CORTEX_M0PLUS =>
      ret (mkHardwired "cortex-m0p" "Cortex-M0+" 496
             (no_fpu (Cap.set_has_mpu false c)))
  | CORTEX_M1 =>
      ret (mkHardwired "cortex-m1" "Cortex-M1" 496
             (no_fpu (Cap.set_has_mpu false c)))
  | CORTEX_M3 =>
      ret (mkHardwired "cortex-m3" "Cortex-M3" 240 (no_fpu c))
  | CORTEX_M4 =>
      ret (mkHardwired "cortex-m4" "Cortex-M4" 496 (no_fpu c))
  | CORTEX_M4F =>
      ret (mkHardwired "cortex-mf4" "Cortex-M4F" 496
             (with_fpu CORTEX_M_FPU_TYPE_FPV4_SP_D16 c))
  | CORTEX_M7 =>
      ret (mkHardwired "cortex-m7" "Cortex-M7" 496 (no_fpu c))
  | CORTEX_M7F =>
      ret (mkHardwired "cortex-m7f" "Cortex-M7F" 496
             (with_fpu CORTEX_M_FPU_TYPE_FPV5_SP_D16 c))
  | CORTEX_M_other n =>
      fatal ("Illegal cortexm_model " ++ fmt_d n ++ ".")
  end.

(** The RAM size of [cortexm_mcu_realize], lines 239-251, as the [int]
    [sram_size_kb] before it is stored. *)
Definition resolve_sram_size_kb (ram_size_arg_kb : Z) (c : Cap.t) : Z :=
  let sram_size_kb :=
    if negb (ram_size_arg_kb =? 0) then ram_size_arg_kb
    else to_int (Cap.sram_size_kb c) in
  (* Max 32 MB ram, to avoid overlapping with the bit-banding area *)
  if sram_size_kb >? 32 * 1024 then 32 * 1024 else sram_size_kb.

(** The Flash size, lines 254-261. *)
Definition resolve_flash_size_kb (flash_size_arg_kb : Z) (c : Cap.t) : Z :=
  if negb (flash_size_arg_kb =? 0) then flash_size_arg_kb
  else to_int (Cap.flash_size_kb c).

(** The interrupt-line count, lines 308-319. *)
Definition resolve_num_irq (max_num_irq : Z) (c : Cap.t) : Z :=
  let num_irq :=
    if negb (to_int (Cap.num_irq c) =? 0) then to_int (Cap.num_irq c)
    else DEFAULT_NUM_IRQ in
  let num_irq := if num_irq >? max_num_irq then max_num_irq else num_irq in
  (* Must be a multiple of 32 *)
  Z.land (to_int (num_irq + 31)) (Z.lnot 31).

(** [pic[i] = qdev_get_gpio_in (nvic, i)] for [0 <= i < num_irq]. *)
Definition pic_lines (nvic : DeviceState) (num_irq : Z) : list qemu_irq :=
  map (fun i : nat => Irq_in nvic (Z.of_nat i)) (seq 0 (Z.to_nat num_irq)).

Section WithExternals.

Variable ext : Externals.

(** [cortexm_mcu_realize], lines 106-368.  The text printed under
    [CONFIG_VERBOSE] and the assignment to [system_clock_scale] are left
    out.  The result carries what realize left in [*errp]. *)
Definition cortexm_mcu_realize (cm_class : CortexMClass) (cm_state : CM.t)
  : M (CM.t * option Error) :=
  match CM.capabilities cm_state with
  | None => fatal "assert (cm_capabilities != NULL)"
  | Some cm_capabilities =>
    let kernel_filename := CM.kernel_filename cm_state in
    let cpu_model_arg := CM.cpu_model cm_state in
    let ram_size_arg_kb := to_int (CM.sram_size_kb cm_state) in
    let flash_size_arg_kb := to_int (CM.flash_size_kb cm_state) in
    cm_capabilities <-
      match cpu_model_arg with
      | Some arg => cpu_model_override arg cm_capabilities
      | None => ret cm_capabilities
      end ;;
    hw <- hardwired cm_capabilities ;;
    let max_num_irq := hw_max_num_irq hw in
    let cm_capabilities := hw_capabilities hw in
    let cm_state := CM.set_capabilities cm_capabilities cm_state in
    let cm_state :=
      CM.set_models (hw_cpu_model hw) (hw_display_model hw) cm_state in
    let sram_size_kb := resolve_sram_size_kb ram_size_arg_kb cm_capabilities in
    let cm_state := CM.set_sram_size_kb sram_size_kb cm_state in
    let flash_size_kb :=
      resolve_flash_size_kb flash_size_arg_kb cm_capabilities in
    let cm_state := CM.set_flash_size_kb flash_size_kb cm_state in
    (* ----- Create CPU based on model. ----- *)
    emit (E_cpu_arm_init (hw_cpu_model hw)) ;;;
    match cpu_arm_init ext (hw_cpu_model hw) with
    | None => fatal ("Unable to find CPU definition " ++ hw_cpu_model hw)
    | Some cpu =>
      let cm_state := CM.set_cpu cpu cm_state in
      (* ----- Create memory regions. ----- *)
      cm_state <- memory_regions_create cm_class cm_state ;;
      (* ----- Create the NVIC device. ----- *)
      emit (E_qdev_create "armv7m_nvic") ;;;
      let nvic := Dev_qdev "armv7m_nvic" in
      (* env->nvic = nvic: stored in the core [cpu], non-NULL here; the
         field cm_state->nvic is not assigned *)
      let num_irq := resolve_num_irq max_num_irq cm_capabilities in
      let cm_state := CM.set_num_irq num_irq cm_state in
      emit (E_qdev_prop_set_uint32 nvic "num-irq" (wrap_u32 num_irq)) ;;;
      emit (E_qdev_init_nofail nvic) ;;;
      emit (E_sysbus_connect_irq nvic 0) ;;;
      (* g_new aborts when the count, read as a size, overflows *)
      if num_irq <? 0 then fatal "g_new: overflow allocating pic" else
      let cm_state := CM.set_pic (pic_lines nvic num_irq) cm_state in
      (* ----- Create the ITM device. ----- *)
      err <- (if Cap.has_itm cm_capabilities
              then emit E_itm_realize ;;; ret (itm_realize ext)
              else ret None) ;;
      match err with
      | Some e => ret (cm_state, Some e)
      | None =>
        (* ----- Load image. ----- *)
        if negb (bool_decide (is_Some kernel_filename))
           && negb (qtest_enabled ext) && negb (with_gdb ext)
        then fatal "Guest image must be specified (using -kernel)"
        else
          (* The image must be loaded later, after all memory regions
             are mapped *)
          image_load cm_class cm_state ;;;
          (if bool_decide (is_Some kernel_filename)
           then emit E_qemu_register_reset (* cortexm_reset, cm_state *)
           else ret tt) ;;;
          ret (cm_state, None)
      end
    end
  end.

(** [int flash_size = cm_state->flash_size_kb * 1024]: the product is
    taken in [uint32_t] and converted to [int]. *)
Definition size_in_bytes (size_kb : Z) : Z := to_int (wrap_u32 (size_kb * 1024)).

(** [cortexm_mcu_memory_regions_create], lines 370-405. *)
Definition cortexm_mcu_memory_regions_create (cm_state : CM.t) : M CM.t :=
  let flash_size := size_in_bytes (CM.flash_size_kb cm_state) in
  let sram_size := size_in_bytes (CM.sram_size_kb cm_state) in
  (* Flash programming is done via the SCU, so pretend it is ROM. *)
  let flash_mem := memory_region_init_ram "cortexm-mem-flash" flash_size in
  let flash_mem := memory_region_set_readonly flash_mem true in
  emit (E_memory_region_add_subregion 0x00000000 flash_mem) ;;;
  let sram_mem := memory_region_init_ram "cortexm-mem-sram" sram_size in
  emit (E_memory_region_add_subregion 0x20000000 sram_mem) ;;;
  cortexm_bitband_init 0x20000000 ;;;
  (* Hack to map an additional page of ram at the top of the address
     space. *)
  let hack_mem := memory_region_init_ram "cortexm-mem-hack" 0x1000 in
  emit (E_memory_region_add_subregion 0xFFFFF000 hack_mem) ;;;
  ret (CM.set_mems flash_mem sram_mem hack_mem cm_state).

(** [cortexm_mcu_image_load], lines 407-446.  Before it looks at
    [kernel_filename] the function stores the boot info in the core,
    [env->boot_info = &cortexm_binfo] with [env = &cm_state->cpu->env]
    (lines 412-422): with no core ([cpu == NULL]) the run dies there, and
    nothing is loaded.  [entry] and [lowaddr] are written and never read,
    and are left out. *)
Definition cortexm_mcu_image_load (cm_state : CM.t) : M unit :=
  match CM.cpu cm_state with
  | None => fatal "env->boot_info = &cortexm_binfo (cpu == NULL)"
  | Some cpu =>
    (* Fill-in a minimal boot info, required for semihosting: a write
       into the core [cpu], which has no field in this model. *)
    match CM.kernel_filename cm_state with
    | Some kernel_filename =>
        emit (E_load_elf kernel_filename) ;;;
        let image_size := to_int (load_elf ext kernel_filename) in
        image_size <-
          (if image_size <? 0 then
             let max_sz := wrap_u32 (CM.flash_size_kb cm_state * 1024) in
             emit (E_load_image_targphys kernel_filename 0 max_sz) ;;;
             ret (to_int (load_image_targphys ext kernel_filename 0 max_sz))
           else ret image_size) ;;
        if image_size <? 0 then
          fatal ("Could not load image '" ++ kernel_filename ++ "'")
        else ret tt
    | None => ret tt
    end
  end.

(** [cortexm_mcu_class_init], lines 452-462: the generic class. *)
Definition cortexm_mcu_class : CortexMClass :=
  mkCortexMClass cortexm_mcu_memory_regions_create cortexm_mcu_image_load.

(** [cortexm_reset], lines 532-549. *)
Definition cortexm_reset (cm_state : CM.t) : M unit :=
  match CM.cpu cm_state with
  | Some cpu =>
      (* Ensure the image is copied into memory before reset fetches
         msp & pc *)
      emit E_rom_reset ;;;
      emit (E_cpu_reset cpu)
  | None => emit E_rom_reset ;;; fatal "cpu_reset (NULL)"
  end.

End WithExternals.

(** [cortexm_mcu_init], lines 503-525.  [dev] is the object
    [qdev_create (NULL, mcu_type)] returned; [on_parent] reaches its
    [CortexMState] part and [dc_realize] is the realize function of its
    class, run when "realized" is set. *)
Definition cortexm_mcu_init {S : Type}
  (on_parent : (CM.t -> CM.t) -> S -> S)
  (dc_realize : S -> M (S * option Error))
  (machine : MachineState) (dev : S) : M S :=
  let dev := match machine_kernel_filename machine with
             | Some f => on_parent (CM.set_kernel_filename f) dev
             | None => dev
             end in
  let dev := match machine_cpu_model machine with
             | Some m => on_parent (CM.set_cpu_model m) dev
             | None => dev
             end in
  r <- dc_realize dev ;;
  match snd r with
  | Some (Error_of msg) => fatal msg
  | None => ret (fst r)
  end.

(** ** [hw/cortexm/stm32/mcu.c] *)

(** Modelled from the spec: the header [hw/cortexm/stm32/mcu.h] is not
    among the sources.  The spec's data model lists GPIO ports A-K and
    USART/UART instances 1-6, and gives bank C the index 2: the port
    indices count from 0 in letter and instance order. *)
Definition STM32_MAX_GPIO : nat := 11.
Definition STM32_MAX_USART : nat := 6.

Definition STM32_GPIO_PORT_A : Z := 0.
Definition STM32_GPIO_PORT_B : Z := 1.
Definition STM32_GPIO_PORT_C : Z := 2.
Definition STM32_GPIO_PORT_D : Z := 3.
Definition STM32_GPIO_PORT_E : Z := 4.
Definition STM32_GPIO_PORT_F : Z := 5.
Definition STM32_GPIO_PORT_G : Z := 6.
Definition STM32_GPIO_PORT_H : Z := 7.
Definition STM32_GPIO_PORT_I : Z := 8.
Definition STM32_GPIO_PORT_J : Z := 9.
Definition STM32_GPIO_PORT_K : Z := 10.

Definition STM32_USART_1 : Z := 0.
Definition STM32_USART_2 : Z := 1.
Definition STM32_USART_3 : Z := 2.
Definition STM32_UART_4 : Z := 3.
Definition STM32_UART_5 : Z := 4.
Definition STM32_USART_6 : Z := 5.

(** The QOM type names are macros of headers that are not among the
    sources; each is rendered by the macro's own name. *)
Definition TYPE_STM32_MCU : string := "TYPE_STM32_MCU".
Definition TYPE_STM32_RCC : string := "TYPE_STM32_RCC".
Definition TYPE_STM32_FLASH : string := "TYPE_STM32_FLASH".
Definition TYPE_STM32_PWR : string := "TYPE_STM32_PWR".
Definition TYPE_STM32_SYSCFG : string := "TYPE_STM32_SYSCFG".
Definition TYPE_STM32_EXTI : string := "TYPE_STM32_EXTI".
Definition TYPE_STM32_USART : string := "TYPE_STM32_USART".

Module STM32Cap.
(** [STM32Capabilities], the fields [mcu.c] reads.  [family] only
    selects a name for the log and is left out. *)
Record t := mk {
  has_periph_bitband : bool;
  hsi_freq_hz : Z;
  lsi_freq_hz : Z;
  has_pwr : bool;
  has_syscfg : bool;
  has_gpioa : bool;
  has_gpiob : bool;
  has_gpioc : bool;
  has_gpiod : bool;
  has_gpioe : bool;
  has_gpiof : bool;
  has_gpiog : bool;
  has_gpioh : bool;
  has_gpioi : bool;
  has_gpioj : bool;
  has_gpiok : bool;
  has_usart1 : bool;
  has_usart2 : bool;
  has_usart3 : bool;
  has_uart4 : bool;
  has_uart5 : bool;
  has_usart6 : bool
}.
End STM32Cap.

Module STM32.
(** [STM32MCUState].  A pointer field is [None] when it is NULL; [gpio]
    and [usart] are the arrays of [STM32_MAX_GPIO] and [STM32_MAX_USART]
    device pointers. *)
Record t := mk {
  parent_obj : CM.t;
  param_capabilities : option STM32Cap.t;
  capabilities : option STM32Cap.t;
  hse_freq_hz : Z;
  lse_freq_hz : Z;
  rcc : option DeviceState;
  flash : option DeviceState;
  pwr : option DeviceState;
  syscfg : option DeviceState;
  exti : option DeviceState;
  gpio : list (option DeviceState);
  usart : list (option DeviceState);
  num_gpio : Z
}.

Definition set_parent_obj (p : CM.t) (s : t) : t :=
  mk p (param_capabilities s) (capabilities s) (hse_freq_hz s)
     (lse_freq_hz s) (rcc s) (flash s) (pwr s) (syscfg s) (exti s) (gpio s)
     (usart s) (num_gpio s).

Definition set_capabilities (c : STM32Cap.t) (s : t) : t :=
  mk (parent_obj s) (param_capabilities s) (Some c) (hse_freq_hz s)
     (lse_freq_hz s) (rcc s) (flash s) (pwr s) (syscfg s) (exti s) (gpio s)
     (usart s) (num_gpio s).

Definition set_rcc (d : DeviceState) (s : t) : t :=
  mk (parent_obj s) (param_capabilities s) (capabilities s) (hse_freq_hz s)
     (lse_freq_hz s) (Some d) (flash s) (pwr s) (syscfg s) (exti s) (gpio s)
     (usart s) (num_gpio s).

Definition set_flash (d : DeviceState) (s : t) : t :=
  mk (parent_obj s) (param_capabilities s) (capabilities s) (hse_freq_hz s)
     (lse_freq_hz s) (rcc s) (Some d) (pwr s) (syscfg s) (exti s) (gpio s)
     (usart s) (num_gpio s).

Definition set_pwr (d : DeviceState) (s : t) : t :=
  mk (parent_obj s) (param_capabilities s) (capabilities s) (hse_freq_hz s)
     (lse_freq_hz s) (rcc s) (flash s) (Some d) (syscfg s) (exti s) (gpio s)
     (usart s) (num_gpio s).

Definition set_syscfg (d : DeviceState) (s : t) : t :=
  mk (parent_obj s) (param_capabilities s) (capabilities s) (hse_freq_hz s)
     (lse_freq_hz s) (rcc s) (flash s) (pwr s) (Some d) (exti s) (gpio s)
     (usart s) (num_gpio s).

Definition set_exti (d : DeviceState) (s : t) : t :=
  mk (parent_obj s) (param_capabilities s) (capabilities s) (hse_freq_hz s)
     (lse_freq_hz s) (rcc s) (flash s) (pwr s) (syscfg s) (Some d) (gpio s)
     (usart s) (num_gpio s).

(** [state->gpio[index] = d]. *)
Definition set_gpio (index : Z) (d : DeviceState) (s : t) : t :=
  mk (parent_obj s) (param_capabilities s) (capabilities s) (hse_freq_hz s)
     (lse_freq_hz s) (rcc s) (flash s) (pwr s) (syscfg s) (exti s)
     (<[Z.to_nat index := Some d]> (gpio s)) (usart s) (num_gpio s).

(** [state->usart[index] = d]. *)
Definition set_usart (index : Z) (d : DeviceState) (s : t) : t :=
  mk (parent_obj s) (param_capabilities s) (capabilities s) (hse_freq_hz s)
     (lse_freq_hz s) (rcc s) (flash s) (pwr s) (syscfg s) (exti s) (gpio s)
     (<[Z.to_nat index := Some d]> (usart s)) (num_gpio s).

Definition set_num_gpio (n : Z) (s : t) : t :=
  mk (parent_obj s) (param_capabilities s) (capabilities s) (hse_freq_hz s)
     (lse_freq_hz s) (rcc s) (flash s) (pwr s) (syscfg s) (exti s) (gpio s)
     (usart s) n.

(** The object as [qdev_create] and [stm32_mcu_instance_init_callback]
    (lines 398-409) leave it: zeroed, with the "stm32-capabilities"
    property set by the chip's own type. *)
Definition new (parent : CM.t) (caps : option STM32Cap.t) : t :=
  mk parent caps None 0 0 None None None None None
     (replicate STM32_MAX_GPIO None) (replicate STM32_MAX_USART None) 0.
End STM32.

(** [create_gpio], lines 37-41. *)
Definition create_gpio (state : STM32.t) (index : Z) : M STM32.t :=
  emit (E_gpio_create index) ;;;
  ret (STM32.set_gpio index (Dev_gpio index) state).

(** The character ['1' + index] that [%c] prints. *)
Definition usart_digit (index : Z) : string :=
  String (ascii_of_N (Z.to_N ((49 + index) mod 256))) EmptyString.

Section STM32WithExternals.

Variable ext : Externals.

(** [create_usart], lines 47-81. *)
Definition create_usart (state : STM32.t) (index : Z) : M STM32.t :=
  let child_name := snprintf 10 ("usart[" ++ usart_digit index ++ "]") in
  emit (E_object_new child_name TYPE_STM32_USART) ;;;
  let usart := Dev_object child_name TYPE_STM32_USART in
  emit (E_object_property_set_int usart index "port-index") ;;;
  emit (E_qdev_prop_set_ptr usart "capabilities") ;;;
  emit (E_qdev_prop_set_ptr usart "rcc") ;;;
  emit (E_qdev_prop_set_ptr usart "nvic") ;;;
  if to_int index >=? MAX_SERIAL_PORTS ext then
    fatal ("Cannot assign usart " ++ fmt_d index
           ++ ": QEMU supports only " ++ fmt_d (MAX_SERIAL_PORTS ext)
           ++ " ports")
  else
    chr <- match serial_hds ext index with
           | Some chr => ret chr
           | None =>
               let chardev_name := snprintf 10 ("serial" ++ fmt_d index) in
               emit (E_qemu_chr_new chardev_name "null") ;;;
               match qemu_chr_new ext chardev_name "null" with
               | Some chr => ret chr
               | None =>
                   fatal ("Can't assign serial port to " ++ child_name ++ ".")
               end
           end ;;
    emit (E_qdev_prop_set_chr usart chr) ;;;
    emit (E_object_realize usart) ;;;
    ret (STM32.set_usart index usart state).

(** A block [if (flag) { ... }] that updates the state. *)
Definition when (flag : bool) (body : STM32.t -> M STM32.t)
  (state : STM32.t) : M STM32.t :=
  if flag then body state else ret state.

(** The GPIO blocks of [stm32_mcu_realize_callback], lines 243-309. *)
Definition realize_gpios (capabilities : STM32Cap.t) (state : STM32.t)
  : M STM32.t :=
  let bank flag index tally :=
    when flag (fun state =>
      state <- create_gpio state index ;;
      ret (STM32.set_num_gpio tally state)) in
  let state := STM32.set_num_gpio 0 state in
  state <- bank (STM32Cap.has_gpioa capabilities) STM32_GPIO_PORT_A 1 state ;;
  state <- bank (STM32Cap.has_gpiob capabilities) STM32_GPIO_PORT_B 2 state ;;
  state <- bank (STM32Cap.has_gpioc capabilities) STM32_GPIO_PORT_C 3 state ;;
  state <- bank (STM32Cap.has_gpiod capabilities) STM32_GPIO_PORT_D 4 state ;;
  state <- bank (STM32Cap.has_gpioe capabilities) STM32_GPIO_PORT_E 5 state ;;
  state <- bank (STM32Cap.has_gpiof capabilities) STM32_GPIO_PORT_F 6 state ;;
  state <- bank (STM32Cap.has_gpiog capabilities) STM32_GPIO_PORT_G 7 state ;;
  state <- bank (STM32Cap.has_gpioh capabilities) STM32_GPIO_PORT_H 8 state ;;
  state <- bank (STM32Cap.has_gpioi capabilities) STM32_GPIO_PORT_I 9 state ;;
  state <- bank (STM32Cap.has_gpioj capabilities) STM32_GPIO_PORT_J 10 state ;;
  bank (STM32Cap.has_gpiok capabilities) STM32_GPIO_PORT_K 11 state.

(** The USART/UART blocks, lines 311-339. *)
Definition realize_usarts (capabilities : STM32Cap.t) (state : STM32.t)
  : M STM32.t :=
  let port flag index := when flag (fun state => create_usart state index) in
  state <- port (STM32Cap.has_usart1 capabilities) STM32_USART_1 state ;;
  state <- port (STM32Cap.has_usart2 capabilities) STM32_USART_2 state ;;
  state <- port (STM32Cap.has_usart3 capabilities) STM32_USART_3 state ;;
  state <- port (STM32Cap.has_uart4 capabilities) STM32_UART_4 state ;;
  state <- port (STM32Cap.has_uart5 capabilities) STM32_UART_5 state ;;
  port (STM32Cap.has_usart6 capabilities) STM32_USART_6 state.

(** [cm_object_new (container, name, type)] followed, after [props], by
    [cm_object_realize]: the handle of the new child. *)
Definition new_child (name type : string)
  (props : DeviceState -> M unit) : M DeviceState :=
  emit (E_object_new name type) ;;;
  let obj := Dev_object name type in
  props obj ;;;
  emit (E_object_realize obj) ;;;
  ret obj.

(** The blocks from the Flash alias to EXTI, lines 132-241. *)
Definition realize_fixed (capabilities : STM32Cap.t) (state : STM32.t)
  : M STM32.t :=
  (* Memory alias *)
  let cm_state := STM32.parent_obj state in
  let flash_size := size_in_bytes (CM.flash_size_kb cm_state) in
  let flash_alias_mem :=
    memory_region_init_alias "mem-flash-alias" "cortexm-mem-flash" 0
                             flash_size in
  let flash_alias_mem := memory_region_set_readonly flash_alias_mem true in
  (* Alias it as the STM specific 0x08000000 *)
  emit (E_memory_region_add_subregion 0x08000000 flash_alias_mem) ;;;
  (* Peripheral bitband: the three-argument cortexm_bitband_init of
     hw/cortexm/bitband.h, which is not among the sources; the call is
     recorded. *)
  (if STM32Cap.has_periph_bitband capabilities
   then emit (E_bitband_init "periph-bitband" 0x40000000)
   else ret tt) ;;;
  (* RCC *)
  rcc <- new_child "rcc" TYPE_STM32_RCC (fun rcc =>
    emit (E_object_property_set_int rcc
            (STM32Cap.hsi_freq_hz capabilities) "hsi-freq-hz") ;;;
    emit (E_object_property_set_int rcc
            (STM32Cap.lsi_freq_hz capabilities) "lsi-freq-hz") ;;;
    emit (E_object_property_set_int rcc
            (STM32.hse_freq_hz state) "hse-freq-hz") ;;;
    emit (E_object_property_set_int rcc
            (STM32.lse_freq_hz state) "lse-freq-hz")) ;;
  let state := STM32.set_rcc rcc state in
  (* FLASH *)
  flash <- new_child "flash" TYPE_STM32_FLASH (fun _ => ret tt) ;;
  let state := STM32.set_flash flash state in
  (* PWR *)
  state <- when (STM32Cap.has_pwr capabilities) (fun state =>
             pwr <- new_child "pwr" TYPE_STM32_PWR (fun _ => ret tt) ;;
             ret (STM32.set_pwr pwr state)) state ;;
  (* SYSCFG *)
  state <- when (STM32Cap.has_syscfg capabilities) (fun state =>
             pwr <- new_child "syscfg" TYPE_STM32_SYSCFG (fun _ => ret tt) ;;
             ret (STM32.set_syscfg pwr state)) state ;;
  (* EXTI: it is referred by the GPIOs, to forward interrupts, so it
     must be constructed before the GPIOs. *)
  exti <- new_child "exti" TYPE_STM32_EXTI (fun _ => ret tt) ;;
  ret (STM32.set_exti exti state).

(** [stm32_mcu_realize_callback], lines 90-343.  [parent_realize] is what
    [cm_device_parent_realize (dev, errp, TYPE_STM32_MCU)] runs on the
    [CortexMState] part; the callback returns at once when that left an
    error.  The family name is only logged. *)
Definition stm32_mcu_realize_callback
  (parent_realize : CM.t -> M (CM.t * option Error)) (state : STM32.t)
  : M (STM32.t * option Error) :=
  (* Call parent realize(). *)
  r <- parent_realize (STM32.parent_obj state) ;;
  let state := STM32.set_parent_obj (fst r) state in
  match snd r with
  | Some e => ret (state, Some e)
  | None =>
    match STM32.param_capabilities state with
    | None => fatal "assert (capabilities != NULL)"
    | Some capabilities =>
      let state := STM32.set_capabilities capabilities state in
      state <- realize_fixed capabilities state ;;
      state <- realize_gpios capabilities state ;;
      state <- realize_usarts capabilities state ;;
      ret (state, None)
    end
  end.

(** [for (i = 0; i < n; ++i) body (i)]. *)
Definition for_upto (n : nat) (body : nat -> M unit) : M unit :=
  fold_right (fun i k => body i ;;; k) (ret tt) (seq 0 n).

(** [if (p) device_reset (p)]. *)
Definition reset_if_present (p : option DeviceState) : M unit :=
  match p with
  | Some d => emit (E_device_reset d)
  | None => ret tt
  end.

(** [stm32_mcu_reset_callback], lines 345-373.  What
    [cm_device_parent_reset] of [hw/cortexm/helper.c] does is not among
    the sources; the call is recorded. *)
Definition stm32_mcu_reset_callback (state : STM32.t) : M unit :=
  (* Call parent reset(). *)
  emit (E_parent_reset TYPE_STM32_MCU) ;;;
  reset_if_present (STM32.rcc state) ;;;
  reset_if_present (STM32.flash state) ;;;
  for_upto STM32_MAX_GPIO (fun i =>
    reset_if_present (default None (STM32.gpio state !! i))) ;;;
  for_upto STM32_MAX_USART (fun i =>
    reset_if_present (default None (STM32.usart state !! i))).

(** [stm32_mcu_memory_regions_create_callback], lines 378-386: the
    parent class's [memory_regions_create]. *)
Definition stm32_mcu_memory_regions_create_callback (cm_state : CM.t)
  : M CM.t :=
  cortexm_mcu_memory_regions_create cm_state.

(** [stm32_mcu_class_init_callback], lines 411-420: [image_load] is
    inherited from the Cortex-M class. *)
Definition stm32_mcu_class : CortexMClass :=
  mkCortexMClass stm32_mcu_memory_regions_create_callback
                 (cortexm_mcu_image_load ext).

(** Modelled from the spec: [cm_device_parent_realize] belongs to
    [hw/cortexm/helper.c], which is not among the sources.  By the spec
    (4.4, 4.5) the vendor layer delegates to the generic layer as an
    explicit super-call before it builds its peripherals: the parent
    realize is [cortexm_mcu_realize], dispatching on the device's own
    (STM32) class. *)
Definition cm_device_parent_realize (cm_state : CM.t)
  : M (CM.t * option Error) :=
  cortexm_mcu_realize ext stm32_mcu_class cm_state.

(** Construction of an STM32 chip: [cortexm_mcu_init] on an STM32 type. *)
Definition stm32_construct (machine : MachineState) (dev : STM32.t)
  : M STM32.t :=
  cortexm_mcu_init
    (fun f s => STM32.set_parent_obj (f (STM32.parent_obj s)) s)
    (stm32_mcu_realize_callback cm_device_parent_realize)
    machine dev.

(** Construction of a plain Cortex-M chip. *)
Definition cortexm_construct (machine : MachineState) (dev : CM.t) : M CM.t :=
  cortexm_mcu_init (fun f s => f s)
    (cortexm_mcu_realize ext (cortexm_mcu_class ext)) machine dev.

End STM32WithExternals.

(** * Properties *)

(** ** The monad *)

Lemma outcome_bind {A B : Type} (m : M A) (k : A -> M B) :
  outcome (bind m k)
  = match outcome m with Ok a => outcome (k a) | Fatal msg => Fatal msg end.
Proof. unfold bind. destruct (outcome m); reflexivity. Qed.

Lemma calls_bind {A B : Type} (m : M A) (k : A -> M B) :
  calls (bind m k)
  = calls m ++ match outcome m with Ok a => calls (k a) | Fatal _ => [] end.
Proof.
  unfold bind. destruct (outcome m); simpl; [reflexivity|].
  symmetry. apply app_nil_r.
Qed.

Lemma bind_Ok {A B : Type} (m : M A) (k : A -> M B) (b : B) :
  outcome (bind m k) = Ok b ->
  exists a, outcome m = Ok a /\ outcome (k a) = Ok b
            /\ calls (bind m k) = calls m ++ calls (k a).
Proof.
  rewrite outcome_bind, calls_bind.
  destruct (outcome m) as [a|msg]; [|discriminate].
  intros H. exists a. auto.
Qed.

Lemma outcome_ret {A : Type} (a : A) : outcome (ret a) = Ok a.
Proof. reflexivity. Qed.

Lemma calls_ret {A : Type} (a : A) : calls (ret a) = [].
Proof. reflexivity. Qed.

Lemma outcome_emit (e : event) : outcome (emit e) = Ok tt.
Proof. reflexivity. Qed.

Lemma calls_emit (e : event) : calls (emit e) = [e].
Proof. reflexivity. Qed.

(** ** Machine integers *)

Lemma to_int_range (z : Z) : INT_MIN <= to_int z <= INT_MAX.
Proof.
  unfold to_int, INT_MIN, INT_MAX.
  pose proof (Z.mod_pos_bound (z + 2 ^ 31) (2 ^ 32) ltac:(lia)). lia.
Qed.

Lemma to_int_small (z : Z) : INT_MIN <= z <= INT_MAX -> to_int z = z.
Proof.
  unfold to_int, INT_MIN, INT_MAX. intros H.
  rewrite Z.mod_small by lia. lia.
Qed.

Lemma wrap_u32_small (z : Z) : 0 <= z < 2 ^ 32 -> wrap_u32 z = z.
Proof. intros H. unfold wrap_u32. apply Z.mod_small. exact H. Qed.


(** [x & ~31] clears the five low bits. *)
Lemma land_lnot_31 (x : Z) : Z.land x (Z.lnot 31) = 32 * (x / 32).
Proof.
  change 31 with (Z.ones 5).
  rewrite <- Z.ldiff_land, Z.ldiff_ones_r by lia.
  rewrite Z.shiftl_mul_pow2, Z.shiftr_div_pow2 by lia.
  change (2 ^ 5) with 32. lia.
Qed.

(** ** Resolution of the capabilities *)

(** The model a [--cpu] argument selects: the [strcmp] chain read as a
    table. *)
Definition accepted_cpu_model (arg : string) : option cortexm_models_t :=
  if String.eqb arg "cortex-m0" then Some CORTEX_M0
  else if String.eqb arg "cortex-m0p" then Some CORTEX_M0PLUS
  else if String.eqb arg "cortex-m1" then Some CORTEX_M1
  else if String.eqb arg "cortex-m3" then Some CORTEX_M3
  else if String.eqb arg "cortex-m4" then Some CORTEX_M4
  else if String.eqb arg "cortex-m4f" then Some CORTEX_M4F
  else if String.eqb arg "cortex-m7" then Some CORTEX_M7
  else if String.eqb arg "cortex-m7f" then Some CORTEX_M7F
  else None.

(** The hardware ceiling on interrupt lines of each core family. *)
Definition core_ceiling (m : cortexm_models_t) : Z :=
  match m with CORTEX_M3 => 240 | _ => 496 end.

(** The models the switch knows. *)
Definition supported_model (m : cortexm_models_t) : bool :=
  match m with CORTEX_M_other _ => false | _ => true end.

(** The identifier the switch stores for each model. *)
Definition stored_cpu_model (m : cortexm_models_t) : string :=
  match m with
  | CORTEX_M0 => "cortex-m0"
  | CORTEX_M0PLUS => "cortex-m0p"
  | CORTEX_M1 => "cortex-m1"
  | CORTEX_M3 => "cortex-m3"
  | CORTEX_M4 => "cortex-m4"
  | CORTEX_M4F => "cortex-mf4"
  | CORTEX_M7 => "cortex-m7"
  | CORTEX_M7F => "cortex-m7f"
  | CORTEX_M_other _ => "?"
  end.

Definition model_has_fpu (m : cortexm_models_t) : bool :=
  match m with CORTEX_M4F | CORTEX_M7F => true | _ => false end.

Definition model_fpu_type (m : cortexm_models_t) : cortexm_fpu_type_t :=
  match m with
  | CORTEX_M4F => CORTEX_M_FPU_TYPE_FPV4_SP_D16
  | CORTEX_M7F => CORTEX_M_FPU_TYPE_FPV5_SP_D16
  | _ => CORTEX_M_FPU_TYPE_NONE
  end.

(** Where the code fixes [has_mpu]: in the [--cpu] chain for M4, M4F, M7
    and M7F, and in the switch for M0, M0+ and M1; nowhere for M3 or for
    an M4/M7 model that the descriptor itself names. *)
Definition override_mpu (m : cortexm_models_t) : option bool :=
  match m with
  | CORTEX_M4 | CORTEX_M7 => Some false
  | CORTEX_M4F | CORTEX_M7F => Some true
  | _ => None
  end.

Definition switch_mpu (m : cortexm_models_t) : option bool :=
  match m with
  | CORTEX_M0 | CORTEX_M0PLUS | CORTEX_M1 => Some false
  | _ => None
  end.

Definition mpu_hardwired (by_override : bool) (m : cortexm_models_t)
  : option bool :=
  match switch_mpu m with
  | Some b => Some b
  | None => if by_override then override_mpu m else None
  end.

#[local] Arguments to_int : simpl never.
#[local] Arguments wrap_u32 : simpl never.
#[local] Arguments wrap_u64 : simpl never.
#[local] Arguments size_in_bytes : simpl never.
#[local] Arguments resolve_num_irq : simpl never.
#[local] Arguments resolve_sram_size_kb : simpl never.
#[local] Arguments resolve_flash_size_kb : simpl never.
#[local] Arguments pic_lines : simpl never.
#[local] Arguments Z.ltb : simpl never.
#[local] Arguments Z.mul : simpl never.
#[local] Arguments String.eqb : simpl never.
#[local] Arguments append : simpl never.
#[local] Arguments cortexm_mcu_image_load : simpl never.

Lemma outcome_cpu_model_override (arg : string) (c : Cap.t) (c' : Cap.t) :
  outcome (cpu_model_override arg c) = Ok c' ->
  exists m, accepted_cpu_model arg = Some m
    /\ Cap.cortexm_model c' = m
    /\ Cap.has_mpu c' = default (Cap.has_mpu c) (override_mpu m)
    /\ Cap.num_irq c' = Cap.num_irq c
    /\ Cap.sram_size_kb c' = Cap.sram_size_kb c
    /\ Cap.flash_size_kb c' = Cap.flash_size_kb c
    /\ Cap.has_itm c' = Cap.has_itm c.
Proof.
  unfold cpu_model_override, accepted_cpu_model.
  repeat match goal with
         | |- context [String.eqb arg ?s] => destruct (String.eqb arg s)
         end;
    simpl; intros H; try discriminate; injection H as <-;
    eexists; repeat split; reflexivity.
Qed.

Lemma calls_cpu_model_override (arg : string) (c : Cap.t) :
  calls (cpu_model_override arg c) = [].
Proof.
  unfold cpu_model_override.
  repeat match goal with
         | |- context [String.eqb arg ?s] => destruct (String.eqb arg s)
         end; reflexivity.
Qed.

Lemma outcome_hardwired (c : Cap.t) (hw : Hardwired) :
  outcome (hardwired c) = Ok hw ->
  let c' := hw_capabilities hw in
  let m := Cap.cortexm_model c in
  Cap.cortexm_model c' = m
  /\ hw_cpu_model hw = stored_cpu_model m
  /\ hw_max_num_irq hw = core_ceiling m
  /\ Cap.has_fpu c' = model_has_fpu m
  /\ Cap.fpu_type c' = model_fpu_type m
  /\ Cap.has_mpu c' = default (Cap.has_mpu c) (switch_mpu m)
  /\ Cap.num_irq c' = Cap.num_irq c
  /\ Cap.sram_size_kb c' = Cap.sram_size_kb c
  /\ Cap.flash_size_kb c' = Cap.flash_size_kb c
  /\ Cap.has_itm c' = Cap.has_itm c
  /\ supported_model m = true.
Proof.
  unfold hardwired. destruct c as [m f s mpu fpu ft itm n]; simpl.
  destruct m; simpl; intros H; try discriminate; injection H as <-;
    simpl; repeat split; reflexivity.
Qed.

Lemma calls_hardwired (c : Cap.t) : calls (hardwired c) = [].
Proof. unfold hardwired. destruct (Cap.cortexm_model c); reflexivity. Qed.

(** The memory-region step always returns, and only fills in the three
    region fields. *)
Lemma outcome_memory_regions_create (s : CM.t) :
  exists f r h,
    outcome (cortexm_mcu_memory_regions_create s) = Ok (CM.set_mems f r h s).
Proof. do 3 eexists. reflexivity. Qed.

Lemma calls_memory_regions_create_sizes (s s' : CM.t) :
  CM.flash_size_kb s = CM.flash_size_kb s' ->
  CM.sram_size_kb s = CM.sram_size_kb s' ->
  calls (cortexm_mcu_memory_regions_create s)
  = calls (cortexm_mcu_memory_regions_create s').
Proof.
  intros Hf Hs. unfold cortexm_mcu_memory_regions_create.
  rewrite Hf, Hs. reflexivity.
Qed.

Lemma pure_eq {A : Type} (m : M A) (a : A) :
  calls m = [] -> outcome m = Ok a -> m = ret a.
Proof. destruct m as [l r]. simpl. intros -> ->. reflexivity. Qed.

Lemma bind_ret_l {A B : Type} (a : A) (k : A -> M B) : bind (ret a) k = k a.
Proof. unfold bind. simpl. destruct (k a); reflexivity. Qed.

Lemma calls_bind_emit {B : Type} (e : event) (k : unit -> M B) :
  calls (bind (emit e) k) = e :: calls (k tt).
Proof. reflexivity. Qed.

Lemma outcome_bind_emit {B : Type} (e : event) (k : unit -> M B) :
  outcome (bind (emit e) k) = outcome (k tt).
Proof. reflexivity. Qed.

(** The calls of the memory-region step, in order. *)
Lemma calls_memory_regions_create (s : CM.t) :
  calls (cortexm_mcu_memory_regions_create s)
  = [ E_memory_region_add_subregion 0
        (mkMemoryRegion "cortexm-mem-flash" MR_RAM
           (wrap_u64 (size_in_bytes (CM.flash_size_kb s))) true);
      E_memory_region_add_subregion 0x20000000
        (mkMemoryRegion "cortexm-mem-sram" MR_RAM
           (wrap_u64 (size_in_bytes (CM.sram_size_kb s))) false);
      E_qdev_create TYPE_BITBAND;
      E_qdev_prop_set_uint32 (Dev_qdev TYPE_BITBAND) "base" 0x20000000;
      E_qdev_init_nofail (Dev_qdev TYPE_BITBAND);
      E_sysbus_mmio_map (Dev_qdev TYPE_BITBAND) 0 0x22000000;
      E_memory_region_add_subregion 0xFFFFF000
        (mkMemoryRegion "cortexm-mem-hack" MR_RAM 0x1000 false) ].
Proof. reflexivity. Qed.

(** What a run of [cortexm_mcu_realize] that returns has established. *)
Lemma cortexm_mcu_realize_Ok (ext : Externals) (st st' : CM.t)
  (errp : option Error) :
  outcome (cortexm_mcu_realize ext (cortexm_mcu_class ext) st)
  = Ok (st', errp) ->
  exists (c0 c' : Cap.t) (cpu : ARMCPU) (tail : list event),
    CM.capabilities st = Some c0
    /\ CM.capabilities st' = Some c'
    /\ match CM.cpu_model st with
       | Some arg => accepted_cpu_model arg = Some (Cap.cortexm_model c')
       | None => Cap.cortexm_model c0 = Cap.cortexm_model c'
       end
    /\ Cap.has_fpu c' = model_has_fpu (Cap.cortexm_model c')
    /\ Cap.fpu_type c' = model_fpu_type (Cap.cortexm_model c')
    /\ Cap.has_mpu c'
       = default (Cap.has_mpu c0)
           (mpu_hardwired (bool_decide (is_Some (CM.cpu_model st)))
                          (Cap.cortexm_model c'))
    /\ Cap.num_irq c' = Cap.num_irq c0
    /\ Cap.sram_size_kb c' = Cap.sram_size_kb c0
    /\ Cap.flash_size_kb c' = Cap.flash_size_kb c0
    /\ CM.cpu_model st' = Some (stored_cpu_model (Cap.cortexm_model c'))
    /\ cpu_arm_init ext (stored_cpu_model (Cap.cortexm_model c')) = Some cpu
    /\ CM.cpu st' = Some cpu
    /\ CM.num_irq st'
       = resolve_num_irq (core_ceiling (Cap.cortexm_model c')) c'
    /\ CM.sram_size_kb st'
       = wrap_u32 (resolve_sram_size_kb (to_int (CM.sram_size_kb st)) c')
    /\ CM.flash_size_kb st'
       = wrap_u32 (resolve_flash_size_kb (to_int (CM.flash_size_kb st)) c')
    /\ CM.kernel_filename st' = CM.kernel_filename st
    /\ supported_model (Cap.cortexm_model c') = true
    /\ (errp = None -> outcome (cortexm_mcu_image_load ext st') = Ok tt)
    /\ calls (cortexm_mcu_realize ext (cortexm_mcu_class ext) st)
       = E_cpu_arm_init (stored_cpu_model (Cap.cortexm_model c'))
           :: calls (cortexm_mcu_memory_regions_create st') ++ tail.
Proof.
  intros H.
  remember (calls (cortexm_mcu_realize ext (cortexm_mcu_class ext) st))
    as L eqn:HC.
  unfold cortexm_mcu_realize in H, HC.
  destruct (CM.capabilities st) as [c0|] eqn:Hc0; [|discriminate].
  match type of H with context [bind ?m _] =>
    match m with context [cpu_model_override] => set (ov := m) in * end end.
  assert (Hov : exists c1, ov = ret c1
            /\ match CM.cpu_model st with
               | Some arg =>
                   accepted_cpu_model arg = Some (Cap.cortexm_model c1)
                   /\ Cap.has_mpu c1
                      = default (Cap.has_mpu c0)
                                (override_mpu (Cap.cortexm_model c1))
               | None => Cap.cortexm_model c0 = Cap.cortexm_model c1
                   /\ Cap.has_mpu c1 = Cap.has_mpu c0
               end
            /\ Cap.num_irq c1 = Cap.num_irq c0
            /\ Cap.sram_size_kb c1 = Cap.sram_size_kb c0
            /\ Cap.flash_size_kb c1 = Cap.flash_size_kb c0
            /\ Cap.has_itm c1 = Cap.has_itm c0).
  { rewrite outcome_bind in H.
    destruct (outcome ov) as [c1|] eqn:Hov; [|discriminate].
    exists c1. subst ov. destruct (CM.cpu_model st) as [arg|].
    - split; [apply pure_eq; [apply calls_cpu_model_override|exact Hov]|].
      apply outcome_cpu_model_override in Hov
        as (m & Hm & <- & Hmpu & Hn & Hs & Hf & Hi).
      auto 10.
    - injection Hov as <-. auto 10. }
  destruct Hov as (c1 & Hov & Hmodel & Hn1 & Hs1 & Hf1 & Hi1).
  rewrite Hov, bind_ret_l in H, HC. clear ov Hov.
  assert (Hhw : exists hw, hardwired c1 = ret hw
                           /\ outcome (hardwired c1) = Ok hw).
  { rewrite outcome_bind in H.
    destruct (outcome (hardwired c1)) as [hw|] eqn:Hhw; [|discriminate].
    exists hw. split; [|reflexivity].
    apply pure_eq; [apply calls_hardwired|exact Hhw]. }
  destruct Hhw as (hw & Ehw & Hhw). rewrite Ehw, bind_ret_l in H, HC.
  clear Ehw.
  apply outcome_hardwired in Hhw.
  destruct Hhw as (Hm & Hname & Hmax & Hfpu & Hft & Hmpu & Hn & Hs & Hf & Hi
                   & Hsup).
  simpl in H, HC.
  destruct (cpu_arm_init ext (hw_cpu_model hw)) as [cpu|] eqn:Hcpu;
    [|discriminate].
  simpl in H, HC.
  destruct (resolve_num_irq (hw_max_num_irq hw) (hw_capabilities hw) <? 0)
    eqn:Hneg; [discriminate|].
  assert (Hmpu' : Cap.has_mpu (hw_capabilities hw)
            = default (Cap.has_mpu c0)
                (mpu_hardwired (bool_decide (is_Some (CM.cpu_model st)))
                               (Cap.cortexm_model (hw_capabilities hw)))).
  { rewrite Hmpu, Hm. unfold mpu_hardwired.
    destruct (CM.cpu_model st) as [arg|]; destruct Hmodel as [_ ->];
      destruct (switch_mpu (Cap.cortexm_model c1)); reflexivity. }
  assert (Hmodel' : match CM.cpu_model st with
       | Some arg => accepted_cpu_model arg
                     = Some (Cap.cortexm_model (hw_capabilities hw))
       | None => Cap.cortexm_model c0 = Cap.cortexm_model (hw_capabilities hw)
       end).
  { rewrite Hm. destruct (CM.cpu_model st); apply Hmodel. }
  rewrite <- Hm in Hname, Hmax, Hfpu, Hft, Hsup. rewrite Hname, Hmax in *.
  exists c0, (hw_capabilities hw), cpu.
  assert (Hfin : exists tail big,
             Ok (big, errp) = Ok (st', errp)
             /\ CM.capabilities big = Some (hw_capabilities hw)
             /\ CM.cpu_model big
                = Some (stored_cpu_model
                          (Cap.cortexm_model (hw_capabilities hw)))
             /\ CM.cpu big = Some cpu
             /\ CM.num_irq big
                = resolve_num_irq
                    (core_ceiling (Cap.cortexm_model (hw_capabilities hw)))
                    (hw_capabilities hw)
             /\ CM.sram_size_kb big
                = wrap_u32 (resolve_sram_size_kb (to_int (CM.sram_size_kb st))
                                                 (hw_capabilities hw))
             /\ CM.flash_size_kb big
                = wrap_u32 (resolve_flash_size_kb
                              (to_int (CM.flash_size_kb st))
                              (hw_capabilities hw))
             /\ CM.kernel_filename big = CM.kernel_filename st
             /\ (errp = None
                 -> outcome (cortexm_mcu_image_load ext big) = Ok tt)
             /\ L = E_cpu_arm_init
                      (stored_cpu_model
                         (Cap.cortexm_model (hw_capabilities hw)))
                    :: calls (cortexm_mcu_memory_regions_create
                                (CM.set_flash_size_kb
                                   (resolve_flash_size_kb
                                      (to_int (CM.flash_size_kb st))
                                      (hw_capabilities hw))
                                   (CM.set_sram_size_kb
                                      (resolve_sram_size_kb
                                         (to_int (CM.sram_size_kb st))
                                         (hw_capabilities hw)) st)))
                       ++ tail).
  { destruct (Cap.has_itm (hw_capabilities hw)); simpl in H, HC;
      [destruct (itm_realize ext) as [e|]; simpl in H, HC|];
      try (destruct (negb (bool_decide (is_Some (CM.kernel_filename st)))
                     && negb (qtest_enabled ext) && negb (with_gdb ext));
           [discriminate|];
           rewrite outcome_bind in H; rewrite calls_bind in HC;
           match type of H with
             context [outcome (cortexm_mcu_image_load ext ?s)] =>
               destruct (outcome (cortexm_mcu_image_load ext s)) as [[]|]
               eqn:Himg; [|discriminate]
           end;
           destruct (bool_decide (is_Some (CM.kernel_filename st)));
           simpl in H, HC).
    all: match type of H with Ok (?b, ?e) = _ =>
           assert (e = errp) as <- by (injection H; auto)
         end.
    all: match type of HC with _ = _ :: _ :: _ :: _ :: _ :: _ :: _ :: _ :: ?t =>
           exists t end.
    all: match type of H with Ok (?b, _) = _ => exists b end.
    all: repeat match goal with |- _ /\ _ => split end;
      try exact H; try (intros _; exact Himg); try (intros [=]);
      try (rewrite calls_memory_regions_create;
           cbn [CM.flash_size_kb CM.sram_size_kb CM.set_flash_size_kb
                CM.set_sram_size_kb app];
           exact HC);
      try reflexivity. }
  destruct Hfin as (tail & big & Hbig & Hb1 & Hb2 & Hb3 & Hb4 & Hb5 & Hb6
                    & Hb7 & Hb8 & HL).
  injection Hbig as ->. exists tail.
  repeat match goal with |- _ /\ _ => split end;
    try assumption; try reflexivity; try congruence.
  rewrite HL. f_equal. f_equal.
  apply calls_memory_regions_create_sizes;
    [rewrite Hb6|rewrite Hb5]; reflexivity.
Qed.

(** ** The calls of a realize that returns *)

Definition nvic_dev : DeviceState := Dev_qdev "armv7m_nvic".

(** The calls [cortexm_mcu_realize] makes after the memory regions. *)
Definition realize_tail (ext : Externals) (st' : CM.t) (has_itm : bool)
  (errp : option Error) : list event :=
  [ E_qdev_create "armv7m_nvic";
    E_qdev_prop_set_uint32 nvic_dev "num-irq" (wrap_u32 (CM.num_irq st'));
    E_qdev_init_nofail nvic_dev;
    E_sysbus_connect_irq nvic_dev 0 ]
  ++ (if has_itm then [E_itm_realize] else [])
  ++ match errp with
     | Some _ => []
     | None =>
         calls (cortexm_mcu_image_load ext st')
         ++ match CM.kernel_filename st' with
            | Some _ => [E_qemu_register_reset]
            | None => []
            end
     end.

Lemma cortexm_mcu_realize_Ok_log (ext : Externals) (st st' : CM.t)
  (errp : option Error) :
  outcome (cortexm_mcu_realize ext (cortexm_mcu_class ext) st)
  = Ok (st', errp) ->
  exists c' : Cap.t,
    CM.capabilities st' = Some c'
    /\ CM.pic st' = pic_lines nvic_dev (CM.num_irq st')
    /\ CM.nvic st' = CM.nvic st
    /\ 0 <= CM.num_irq st'
    /\ errp = (if Cap.has_itm c' then itm_realize ext else None)
    /\ (errp = None -> CM.kernel_filename st' = None ->
        qtest_enabled ext || with_gdb ext = true)
    /\ calls (cortexm_mcu_realize ext (cortexm_mcu_class ext) st)
       = E_cpu_arm_init (default "" (CM.cpu_model st'))
           :: calls (cortexm_mcu_memory_regions_create st')
           ++ realize_tail ext st' (Cap.has_itm c') errp.
Proof.
  intros H.
  remember (calls (cortexm_mcu_realize ext (cortexm_mcu_class ext) st))
    as L eqn:HC.
  unfold cortexm_mcu_realize in H, HC.
  destruct (CM.capabilities st) as [c0|] eqn:Hc0; [|discriminate].
  match type of H with context [bind ?m _] =>
    match m with context [cpu_model_override] => set (ov := m) in * end end.
  assert (Hov : exists c1, ov = ret c1).
  { rewrite outcome_bind in H.
    destruct (outcome ov) as [c1|] eqn:Hov; [|discriminate].
    exists c1. subst ov. destruct (CM.cpu_model st) as [arg|].
    - apply pure_eq; [apply calls_cpu_model_override|exact Hov].
    - injection Hov as <-. reflexivity. }
  destruct Hov as (c1 & Hov).
  rewrite Hov, bind_ret_l in H, HC. clear ov Hov.
  assert (Hhw : exists hw, hardwired c1 = ret hw).
  { rewrite outcome_bind in H.
    destruct (outcome (hardwired c1)) as [hw|] eqn:Hhw; [|discriminate].
    exists hw. apply pure_eq; [apply calls_hardwired|exact Hhw]. }
  destruct Hhw as (hw & Ehw). rewrite Ehw, bind_ret_l in H, HC.
  clear Ehw.
  simpl in H, HC.
  destruct (cpu_arm_init ext (hw_cpu_model hw)) as [cpu|] eqn:Hcpu;
    [|discriminate].
  simpl in H, HC.
  destruct (resolve_num_irq (hw_max_num_irq hw) (hw_capabilities hw) <? 0)
    eqn:Hneg; [discriminate|].
  apply Z.ltb_ge in Hneg.
  exists (hw_capabilities hw).
  match type of H with context [cortexm_mcu_image_load ext ?s] =>
    remember s as big0 eqn:Ebig
  end.
  assert (Hfin : exists big,
             Ok (big, errp) = Ok (st', errp)
             /\ CM.capabilities big = Some (hw_capabilities hw)
             /\ CM.pic big
                = pic_lines nvic_dev
                    (resolve_num_irq (hw_max_num_irq hw) (hw_capabilities hw))
             /\ CM.nvic big = CM.nvic st
             /\ CM.num_irq big
                = resolve_num_irq (hw_max_num_irq hw) (hw_capabilities hw)
             /\ CM.cpu_model big = Some (hw_cpu_model hw)
             /\ CM.kernel_filename big = CM.kernel_filename st
             /\ CM.flash_size_kb big
                = wrap_u32 (resolve_flash_size_kb
                              (to_int (CM.flash_size_kb st))
                              (hw_capabilities hw))
             /\ CM.sram_size_kb big
                = wrap_u32 (resolve_sram_size_kb
                              (to_int (CM.sram_size_kb st))
                              (hw_capabilities hw))
             /\ errp = (if Cap.has_itm (hw_capabilities hw)
                        then itm_realize ext else None)
             /\ (errp = None ->
                 negb (bool_decide (is_Some (CM.kernel_filename st)))
                 && negb (qtest_enabled ext) && negb (with_gdb ext) = false)
             /\ L = E_cpu_arm_init (hw_cpu_model hw)
                    :: calls (cortexm_mcu_memory_regions_create
                                (CM.set_flash_size_kb
                                   (resolve_flash_size_kb
                                      (to_int (CM.flash_size_kb st))
                                      (hw_capabilities hw))
                                   (CM.set_sram_size_kb
                                      (resolve_sram_size_kb
                                         (to_int (CM.sram_size_kb st))
                                         (hw_capabilities hw)) st)))
                    ++ [ E_qdev_create "armv7m_nvic";
                         E_qdev_prop_set_uint32 nvic_dev "num-irq"
                           (wrap_u32 (resolve_num_irq (hw_max_num_irq hw)
                                        (hw_capabilities hw)));
                         E_qdev_init_nofail nvic_dev;
                         E_sysbus_connect_irq nvic_dev 0 ]
                    ++ (if Cap.has_itm (hw_capabilities hw)
                        then [E_itm_realize] else [])
                    ++ match errp with
                       | Some _ => []
                       | None =>
                           calls (cortexm_mcu_image_load ext big)
                           ++ (if bool_decide
                                    (is_Some (CM.kernel_filename st))
                               then [E_qemu_register_reset] else [])
                       end).
  { destruct (Cap.has_itm (hw_capabilities hw)); simpl in H, HC;
      [destruct (itm_realize ext) as [e|]; simpl in H, HC|];
      try (destruct (negb (bool_decide (is_Some (CM.kernel_filename st)))
                     && negb (qtest_enabled ext) && negb (with_gdb ext))
             eqn:Hguard; [discriminate|];
           rewrite outcome_bind in H; rewrite calls_bind in HC;
           match type of H with
             context [outcome (cortexm_mcu_image_load ext ?s)] =>
             destruct (outcome (cortexm_mcu_image_load ext s)) as [[]|]
               eqn:Himg; [|discriminate]
           end;
           destruct (bool_decide (is_Some (CM.kernel_filename st)));
           simpl in H, HC).
    all: match type of H with Ok (?b, ?e) = _ =>
           assert (e = errp) as <- by (injection H; auto)
         end.
    all: match type of H with Ok (?b, _) = _ => exists b end.
    all: repeat match goal with |- _ /\ _ => split end;
      try exact H; try reflexivity;
      try solve [rewrite Ebig; reflexivity];
      try solve [intros [=] | intros _; reflexivity].
    all: rewrite calls_memory_regions_create;
      cbn [CM.flash_size_kb CM.sram_size_kb CM.set_flash_size_kb
           CM.set_sram_size_kb app].
    all: exact HC. }
  destruct Hfin as (big & Hbig & Hb1 & Hb3 & Hb2 & Hb4 & Hb5 & Hb6 & Hb7
                    & Hb8 & Hb9 & Hb10 & HL).
  injection Hbig as ->.
  split; [exact Hb1|].
  split; [rewrite Hb4; exact Hb3|]. split; [exact Hb2|].
  split; [rewrite Hb4; exact Hneg|]. split; [exact Hb9|].
  split.
  { intros He Hk. specialize (Hb10 He). rewrite Hb6 in Hk. rewrite Hk in Hb10.
    destruct (qtest_enabled ext), (with_gdb ext); try reflexivity.
    discriminate. }
  rewrite HL, Hb5. unfold realize_tail. rewrite Hb4, Hb6.
  cbn [default]. f_equal. f_equal.
  - apply calls_memory_regions_create_sizes;
      [rewrite Hb7|rewrite Hb8]; reflexivity.
  - do 2 f_equal. destruct errp; [reflexivity|]. f_equal.
    destruct (CM.kernel_filename st); reflexivity.
Qed.

(** ** Example inputs *)

(** An emulator in which every collaborator succeeds: any core model is
    known, ELF loading works, four host serial ports exist and none is
    configured. *)
Definition ext_ok : Externals :=
  mkExternals (fun m => Some (ARMCPU_of m)) None false false
    (fun _ => 4096) (fun _ _ _ => 4096) 4 (fun _ => None)
    (fun n b => Some (Chr n b)).

(** An emulator in which no image can be loaded. *)
Definition ext_noimage : Externals :=
  mkExternals (fun m => Some (ARMCPU_of m)) None false false
    (fun _ => -1) (fun _ _ _ => -1) 4 (fun _ => None)
    (fun n b => Some (Chr n b)).

(** A device before realize: a descriptor, an image, and the overrides. *)
Definition device (c : Cap.t) (cpu_arg : option string) (sram_k flash_k : Z)
  : CM.t :=
  CM.mk (Some c) (Some "image.elf") cpu_arg None sram_k flash_k 0 None None
        [] None None None.

(** A Cortex-M3 part: 64 KiB Flash, 20 KiB RAM, 240 interrupt lines. *)
Definition cap_m3 : Cap.t :=
  Cap.mk CORTEX_M3 64 20 false false CORTEX_M_FPU_TYPE_NONE false 240.

(** A Cortex-M4 part whose descriptor declares an MPU. *)
Definition cap_m4 : Cap.t :=
  Cap.mk CORTEX_M4 64 20 true false CORTEX_M_FPU_TYPE_NONE false 96.

(** The state a device is left in by the generic realize. *)
Definition realized (ext : Externals) (st : CM.t) : CM.t :=
  match outcome (cortexm_mcu_realize ext (cortexm_mcu_class ext) st) with
  | Ok (st', _) => st'
  | Fatal _ => st
  end.

(** The next multiple of 32, in the spec's words. *)
Definition round_up_32 (n : Z) : Z := 32 * ((n + 31) / 32).

(** The descriptor's interrupt-line count, 256 when it gives none. *)
Definition default_num_irq (c : Cap.t) : Z :=
  if to_int (Cap.num_irq c) =? 0 then DEFAULT_NUM_IRQ
  else to_int (Cap.num_irq c).

(** ** Interrupt lines *)

Lemma core_ceiling_cases (m : cortexm_models_t) :
  core_ceiling m = 240 \/ core_ceiling m = 496.
Proof. destruct m; simpl; auto. Qed.

Lemma resolve_num_irq_spec (max : Z) (c : Cap.t) :
  0 <= max <= 1024 ->
  resolve_num_irq max c = round_up_32 (Z.min (default_num_irq c) max).
Proof.
  intros Hmax. unfold resolve_num_irq, default_num_irq, round_up_32.
  pose proof (to_int_range (Cap.num_irq c)) as Hr.
  unfold INT_MIN, INT_MAX, DEFAULT_NUM_IRQ in *.
  rewrite land_lnot_31.
  destruct (to_int (Cap.num_irq c) =? 0) eqn:Hz; simpl negb; cbv iota.
  - destruct (256 >? max) eqn:Hc;
      rewrite to_int_small by (unfold INT_MIN, INT_MAX; lia);
      f_equal; f_equal; lia.
  - destruct (to_int (Cap.num_irq c) >? max) eqn:Hc;
      rewrite to_int_small by (unfold INT_MIN, INT_MAX; lia);
      f_equal; f_equal; lia.
Qed.

(** C1 (as amended): the resolved interrupt-line count is the descriptor
    default (256 when the descriptor gives 0), clamped down to the core
    family's ceiling (496, or 240 for Cortex-M3) and then rounded up to the
    next multiple of 32; it is a multiple of 32, and it is at most the
    ceiling rounded up to a multiple of 32 (512, or 256 for Cortex-M3). *)
Theorem C1_num_irq_resolved (ext : Externals) (st st' : CM.t)
  (errp : option Error) :
  outcome (cortexm_mcu_realize ext (cortexm_mcu_class ext) st)
  = Ok (st', errp) ->
  exists c' : Cap.t,
    CM.capabilities st' = Some c'
    /\ CM.num_irq st'
       = round_up_32 (Z.min (default_num_irq c')
                            (core_ceiling (Cap.cortexm_model c')))
    /\ CM.num_irq st' mod 32 = 0
    /\ CM.num_irq st' <= round_up_32 (core_ceiling (Cap.cortexm_model c'))
    /\ round_up_32 (core_ceiling (Cap.cortexm_model c'))
       = match Cap.cortexm_model c' with CORTEX_M3 => 256 | _ => 512 end.
Proof.
  intros H. apply cortexm_mcu_realize_Ok in H.
  destruct H as (c0 & c' & cpu & tail & _ & Hc' & _ & _ & _ & _ & _ & _ & _
                 & _ & _ & _ & Hirq & _).
  exists c'. split; [exact Hc'|].
  rewrite Hirq, resolve_num_irq_spec
    by (destruct (core_ceiling_cases (Cap.cortexm_model c')) as [-> | ->]; lia).
  split; [reflexivity|]. unfold round_up_32.
  repeat split.
  - rewrite Z.mul_comm. apply Z.mod_mul. lia.
  - apply Z.mul_le_mono_nonneg_l; [lia|]. apply Z.div_le_mono; lia.
  - destruct (Cap.cortexm_model c'); reflexivity.
Qed.

Lemma C1_witness :
  exists c' : Cap.t,
    CM.capabilities (realized ext_ok (device cap_m3 None 0 0)) = Some c'
    /\ CM.num_irq (realized ext_ok (device cap_m3 None 0 0))
       = round_up_32 (Z.min (default_num_irq c')
                            (core_ceiling (Cap.cortexm_model c')))
    /\ CM.num_irq (realized ext_ok (device cap_m3 None 0 0)) mod 32 = 0
    /\ CM.num_irq (realized ext_ok (device cap_m3 None 0 0))
       <= round_up_32 (core_ceiling (Cap.cortexm_model c'))
    /\ round_up_32 (core_ceiling (Cap.cortexm_model c'))
       = match Cap.cortexm_model c' with CORTEX_M3 => 256 | _ => 512 end.
Proof.
  apply (C1_num_irq_resolved ext_ok (device cap_m3 None 0 0) _ None).
  vm_compute. reflexivity.
Defined.

(** C1 as stated fails: a Cortex-M3 descriptor with 240 interrupt lines
    (the family's ceiling) resolves to 256 lines, above the ceiling. *)
Lemma C1_counterexample :
  exists st' : CM.t,
    outcome (cortexm_mcu_realize ext_ok (cortexm_mcu_class ext_ok)
               (device cap_m3 None 0 0)) = Ok (st', None)
    /\ CM.num_irq st' = 256
    /\ core_ceiling CORTEX_M3 = 240
    /\ ~ CM.num_irq st' <= core_ceiling CORTEX_M3.
Proof.
  eexists. split; [vm_compute; reflexivity|].
  split; [reflexivity|]. split; [reflexivity|]. simpl. lia.
Qed.

(** ** Feature flags *)

Lemma mpu_hardwired_value (o1 o2 : bool) (m : cortexm_models_t) (b1 b2 : bool) :
  mpu_hardwired o1 m = Some b1 -> mpu_hardwired o2 m = Some b2 -> b1 = b2.
Proof.
  unfold mpu_hardwired. destruct m, o1, o2; simpl; congruence.
Qed.

(** C4 (as amended): two constructions that resolve to the same core
    model have the same has-FPU and FPU-variant values.  has-MPU is fixed
    by the code only for M0, M0+ and M1 (always off) and, when the model
    was named by an override string, for M4, M4F, M7 and M7F; otherwise
    (M3, or M4/M4F/M7/M7F taken from the descriptor) it keeps the
    descriptor's value.  Where both constructions have it fixed, the two
    values agree. *)
Theorem C4_feature_flags (ext1 ext2 : Externals) (st1 st2 st1' st2' : CM.t)
  (e1 e2 : option Error) (c1 c2 c1' c2' : Cap.t) :
  outcome (cortexm_mcu_realize ext1 (cortexm_mcu_class ext1) st1)
  = Ok (st1', e1) ->
  outcome (cortexm_mcu_realize ext2 (cortexm_mcu_class ext2) st2)
  = Ok (st2', e2) ->
  CM.capabilities st1 = Some c1 -> CM.capabilities st2 = Some c2 ->
  CM.capabilities st1' = Some c1' -> CM.capabilities st2' = Some c2' ->
  Cap.cortexm_model c1' = Cap.cortexm_model c2' ->
  Cap.has_fpu c1' = Cap.has_fpu c2'
  /\ Cap.fpu_type c1' = Cap.fpu_type c2'
  /\ Cap.has_mpu c1'
     = default (Cap.has_mpu c1)
         (mpu_hardwired (bool_decide (is_Some (CM.cpu_model st1)))
                        (Cap.cortexm_model c1'))
  /\ Cap.has_mpu c2'
     = default (Cap.has_mpu c2)
         (mpu_hardwired (bool_decide (is_Some (CM.cpu_model st2)))
                        (Cap.cortexm_model c2'))
  /\ (is_Some (mpu_hardwired (bool_decide (is_Some (CM.cpu_model st1)))
                             (Cap.cortexm_model c1')) ->
      is_Some (mpu_hardwired (bool_decide (is_Some (CM.cpu_model st2)))
                             (Cap.cortexm_model c2')) ->
      Cap.has_mpu c1' = Cap.has_mpu c2').
Proof.
  intros H1 H2 Hc1 Hc2 Hc1' Hc2' Hm.
  apply cortexm_mcu_realize_Ok in H1, H2.
  destruct H1 as (a0 & a' & _ & _ & Ha0 & Ha' & _ & Hfpu1 & Hft1 & Hmpu1 & _).
  destruct H2 as (b0 & b' & _ & _ & Hb0 & Hb' & _ & Hfpu2 & Hft2 & Hmpu2 & _).
  assert (a0 = c1) as -> by congruence. assert (a' = c1') as -> by congruence.
  assert (b0 = c2) as -> by congruence. assert (b' = c2') as -> by congruence.
  repeat split.
  - rewrite Hfpu1, Hfpu2, Hm. reflexivity.
  - rewrite Hft1, Hft2, Hm. reflexivity.
  - exact Hmpu1.
  - exact Hmpu2.
  - intros [x1 Hx1] [x2 Hx2]. rewrite Hmpu1, Hmpu2, Hx1, Hx2. simpl.
    rewrite Hm in Hx1. exact (mpu_hardwired_value _ _ _ _ _ Hx1 Hx2).
Qed.

(** A Cortex-M7F part, and a Cortex-M4 descriptor that wrongly declares
    an FPU. *)
Definition cap_m7f : Cap.t :=
  Cap.mk CORTEX_M7F 1024 256 true true CORTEX_M_FPU_TYPE_FPV5_SP_D16 false 100.

Definition cap_m4_fpu : Cap.t :=
  Cap.mk CORTEX_M4 64 20 false true CORTEX_M_FPU_TYPE_FPV4_SP_D16 false 96.

(** The M7F part with the override "cortex-m4", and the M4 descriptor
    with no override: both resolve to M4. *)
Lemma C4_witness :
  let st1 := device cap_m7f (Some "cortex-m4") 0 0 in
  let st2 := device cap_m4_fpu None 0 0 in
  let c1' := Cap.mk CORTEX_M4 1024 256 false false CORTEX_M_FPU_TYPE_NONE
                    false 100 in
  let c2' := Cap.mk CORTEX_M4 64 20 false false CORTEX_M_FPU_TYPE_NONE
                    false 96 in
  CM.capabilities (realized ext_ok st1) = Some c1'
  /\ CM.capabilities (realized ext_ok st2) = Some c2'
  /\ Cap.has_fpu c1' = Cap.has_fpu c2'
  /\ Cap.fpu_type c1' = Cap.fpu_type c2'
  /\ Cap.has_mpu c1'
     = default (Cap.has_mpu cap_m7f)
         (mpu_hardwired (bool_decide (is_Some (CM.cpu_model st1)))
                        (Cap.cortexm_model c1'))
  /\ Cap.has_mpu c2'
     = default (Cap.has_mpu cap_m4_fpu)
         (mpu_hardwired (bool_decide (is_Some (CM.cpu_model st2)))
                        (Cap.cortexm_model c2'))
  /\ (is_Some (mpu_hardwired (bool_decide (is_Some (CM.cpu_model st1)))
                             (Cap.cortexm_model c1')) ->
      is_Some (mpu_hardwired (bool_decide (is_Some (CM.cpu_model st2)))
                             (Cap.cortexm_model c2')) ->
      Cap.has_mpu c1' = Cap.has_mpu c2').
Proof.
  cbv zeta.
  split; [vm_compute; reflexivity|]. split; [vm_compute; reflexivity|].
  apply (C4_feature_flags ext_ok ext_ok
           (device cap_m7f (Some "cortex-m4") 0 0)
           (device cap_m4_fpu None 0 0)
           (realized ext_ok (device cap_m7f (Some "cortex-m4") 0 0))
           (realized ext_ok (device cap_m4_fpu None 0 0))
           None None cap_m7f cap_m4_fpu);
    vm_compute; reflexivity.
Defined.

(** C4 as stated fails for has-MPU: the same Cortex-M4 descriptor (which
    declares an MPU) resolves to model M4 both without an override and
    with the override "cortex-m4", yet has-MPU is on in the first
    construction and off in the second. *)
Lemma C4_counterexample :
  exists (st1' st2' : CM.t) (c1' c2' : Cap.t),
    outcome (cortexm_mcu_realize ext_ok (cortexm_mcu_class ext_ok)
               (device cap_m4 None 0 0)) = Ok (st1', None)
    /\ outcome (cortexm_mcu_realize ext_ok (cortexm_mcu_class ext_ok)
                  (device cap_m4 (Some "cortex-m4") 0 0)) = Ok (st2', None)
    /\ CM.capabilities st1' = Some c1'
    /\ CM.capabilities st2' = Some c2'
    /\ Cap.cortexm_model c1' = CORTEX_M4
    /\ Cap.cortexm_model c2' = CORTEX_M4
    /\ Cap.has_mpu c1' = true
    /\ Cap.has_mpu c2' = false.
Proof.
  do 4 eexists.
  split; [vm_compute; reflexivity|]. split; [vm_compute; reflexivity|].
  split; [reflexivity|]. split; [reflexivity|]. repeat split.
Qed.

(** ** Memory sizes *)

(** C6: the code at an input where it departs from the claim.  The
    "sram-sizeK" property is a [uint32_t]; an override of 2^31 KiB reads as
    a negative [int], passes the "Max 32 MB ram" test unclamped and is
    stored back as 2147483648 KiB, far above 32768. *)
Theorem C6_sram_clamp_bypassed :
  exists st' : CM.t,
    outcome (cortexm_mcu_realize ext_ok (cortexm_mcu_class ext_ok)
               (device cap_m3 None 2147483648 0)) = Ok (st', None)
    /\ CM.sram_size_kb st' = 2147483648
    /\ 32 * 1024 < CM.sram_size_kb st'.
Proof.
  eexists. split; [vm_compute; reflexivity|].
  split; [reflexivity|]. simpl. lia.
Qed.











(** ** Image loading *)


Lemma cortexm_mcu_init_Ok {S : Type} (on_parent : (CM.t -> CM.t) -> S -> S)
  (dc_realize : S -> M (S * option Error)) (machine : MachineState)
  (dev s : S) :
  outcome (cortexm_mcu_init on_parent dc_realize machine dev) = Ok s ->
  exists dev', outcome (dc_realize dev') = Ok (s, None)
    /\ dev' = match machine_cpu_model machine with
              | Some m => on_parent (CM.set_cpu_model m)
              | None => fun d => d
              end
                (match machine_kernel_filename machine with
                 | Some f => on_parent (CM.set_kernel_filename f) dev
                 | None => dev
                 end).
Proof.
  unfold cortexm_mcu_init. rewrite outcome_bind.
  set (dev' := match machine_cpu_model machine with
               | Some m => on_parent (CM.set_cpu_model m) _
               | None => _
               end).
  intros H. exists dev'.
  destruct (outcome (dc_realize dev')) as [[s' [[msg]|]]|]; simpl in H;
    try discriminate.
  injection H as <-. split; [reflexivity|].
  subst dev'. destruct (machine_cpu_model machine); reflexivity.
Qed.

Lemma calls_image_load_kinds (ext : Externals) (s : CM.t) (e : event) :
  In e (calls (cortexm_mcu_image_load ext s)) ->
  (exists f, e = E_load_elf f) \/ (exists f a m, e = E_load_image_targphys f a m).
Proof.
  unfold cortexm_mcu_image_load.
  destruct (CM.cpu s) as [cpu|]; [|intros []].
  destruct (CM.kernel_filename s) as [f|]; [|intros []].
  rewrite calls_bind_emit, calls_bind.
  destruct (to_int (load_elf ext f) <? 0); cbn.
  - intros [<-|H]; [left; eauto|].
    destruct (to_int (load_image_targphys ext f 0 _) <? 0); cbn in H;
      destruct H as [<-|[]]; right; eauto.
  - intros [<-|H]; [left; eauto|].
    destruct (to_int (load_elf ext f) <? 0); destruct H.
Qed.

Lemma calls_image_load_no_image (ext : Externals) (s : CM.t) :
  CM.kernel_filename s = None -> calls (cortexm_mcu_image_load ext s) = [].
Proof.
  intros H. unfold cortexm_mcu_image_load. rewrite H.
  destruct (CM.cpu s); reflexivity.
Qed.

(** A call that loads an image or registers the reset hook. *)
Definition image_event (e : event) : bool :=
  match e with
  | E_load_elf _ | E_load_image_targphys _ _ _ | E_qemu_register_reset => true
  | _ => false
  end.

Lemma filter_none {A : Type} (f : A -> bool) (l : list A) :
  (forall a, In a l -> f a = false) -> List.filter f l = [].
Proof.
  induction l as [|a l IH]; intros H; [reflexivity|].
  cbn. rewrite (H a) by (left; reflexivity).
  apply IH. intros b Hb. apply H. right. exact Hb.
Qed.

Lemma filter_all {A : Type} (f : A -> bool) (l : list A) :
  (forall a, In a l -> f a = true) -> List.filter f l = l.
Proof.
  induction l as [|a l IH]; intros H; [reflexivity|].
  cbn. rewrite (H a) by (left; reflexivity). f_equal.
  apply IH. intros b Hb. apply H. right. exact Hb.
Qed.









(** A machine whose image cannot be loaded gets no chip: construction
    makes both attempts and ends with the message that names the image. *)
Example construct_without_loadable_image :
  cortexm_construct ext_noimage (mkMachineState (Some "image.elf") None)
    (device cap_m3 None 0 0)
  = ([ E_cpu_arm_init "cortex-m3";
       E_memory_region_add_subregion 0
         (mkMemoryRegion "cortexm-mem-flash" MR_RAM 0x10000 true);
       E_memory_region_add_subregion 0x20000000
         (mkMemoryRegion "cortexm-mem-sram" MR_RAM 0x5000 false);
       E_qdev_create TYPE_BITBAND;
       E_qdev_prop_set_uint32 (Dev_qdev TYPE_BITBAND) "base" 0x20000000;
       E_qdev_init_nofail (Dev_qdev TYPE_BITBAND);
       E_sysbus_mmio_map (Dev_qdev TYPE_BITBAND) 0 0x22000000;
       E_memory_region_add_subregion 0xFFFFF000
         (mkMemoryRegion "cortexm-mem-hack" MR_RAM 0x1000 false);
       E_qdev_create "armv7m_nvic";
       E_qdev_prop_set_uint32 (Dev_qdev "armv7m_nvic") "num-irq" 256;
       E_qdev_init_nofail (Dev_qdev "armv7m_nvic");
       E_sysbus_connect_irq (Dev_qdev "armv7m_nvic") 0;
       E_load_elf "image.elf";
       E_load_image_targphys "image.elf" 0 0x10000 ],
     Fatal "Could not load image 'image.elf'").
Proof. vm_compute. reflexivity. Qed.

(** An emulator in which the image is not ELF but loads as a flat
    binary. *)
Definition ext_flat : Externals :=
  mkExternals (fun m => Some (ARMCPU_of m)) None false false
    (fun _ => -1) (fun _ _ _ => 4096) 4 (fun _ => None)
    (fun n b => Some (Chr n b)).

(** A flat binary: the ELF attempt, then the load at address 0 bounded by
    the 64 KiB of Flash, then the reset hook. *)
Example construct_from_flat_binary :
  List.filter image_event
    (calls (cortexm_construct ext_flat (mkMachineState (Some "image.bin") None)
              (device cap_m3 None 0 0)))
  = [ E_load_elf "image.bin";
      E_load_image_targphys "image.bin" 0 0x10000;
      E_qemu_register_reset ].
Proof. vm_compute. reflexivity. Qed.

(** ** Core-model identifiers *)

Lemma accepted_cpu_model_stored (arg : string) (m : cortexm_models_t) :
  accepted_cpu_model arg = Some m ->
  arg = match m with CORTEX_M4F => "cortex-m4f"%string
                   | _ => stored_cpu_model m end.
Proof.
  unfold accepted_cpu_model.
  repeat match goal with
         | |- context [String.eqb arg ?s] =>
             destruct (String.eqb_spec arg s) as [->|_];
             [intros [= <-]; reflexivity|]
         end.
  discriminate.
Qed.

(** C10: the identifier stored in the chip state, which is also the one
    handed to the processor-core factory, is "cortex-mf4" when the resolved
    model is Cortex-M4F, although the override that selects this model is
    spelled "cortex-m4f" (and "cortex-mf4" is not an accepted override);
    for every other supported model the stored identifier is the accepted
    override name of that model. *)
Theorem C10_stored_identifier (ext : Externals) (st st' : CM.t)
  (errp : option Error) (c' : Cap.t) :
  outcome (cortexm_mcu_realize ext (cortexm_mcu_class ext) st)
  = Ok (st', errp) ->
  CM.capabilities st' = Some c' ->
  exists (id : string) (log : list event),
    CM.cpu_model st' = Some id
    /\ calls (cortexm_mcu_realize ext (cortexm_mcu_class ext) st)
       = E_cpu_arm_init id :: log
    /\ (Cap.cortexm_model c' = CORTEX_M4F ->
        id = "cortex-mf4"%string
        /\ accepted_cpu_model "cortex-m4f" = Some CORTEX_M4F
        /\ accepted_cpu_model id = None
        /\ id <> "cortex-m4f"%string)
    /\ (Cap.cortexm_model c' <> CORTEX_M4F ->
        accepted_cpu_model id = Some (Cap.cortexm_model c')
        /\ forall arg, CM.cpu_model st = Some arg -> id = arg).
Proof.
  intros H Hc. apply cortexm_mcu_realize_Ok in H.
  destruct H as (c0 & c1 & cpu & tail & _ & Hc1 & Hmodel & _ & _ & _ & _ & _
                 & _ & Hid & _ & _ & _ & _ & _ & _ & Hsup & _ & Hcalls).
  assert (c1 = c') as -> by congruence.
  eexists _, _. split; [exact Hid|]. split; [exact Hcalls|].
  split.
  - intros ->. repeat split; try reflexivity. discriminate.
  - intros Hne. split.
    + destruct (Cap.cortexm_model c'); try reflexivity;
        [congruence|discriminate].
    + intros arg Harg. rewrite Harg in Hmodel.
      apply accepted_cpu_model_stored in Hmodel. rewrite Hmodel.
      destruct (Cap.cortexm_model c'); try reflexivity. congruence.
Qed.

Definition cap_m4_basic : Cap.t :=
  Cap.mk CORTEX_M4 64 20 false false CORTEX_M_FPU_TYPE_NONE false 96.

Lemma C10_witness :
  let st := device cap_m4_basic (Some "cortex-m4f") 0 0 in
  exists (id : string) (log : list event),
    CM.cpu_model (realized ext_ok st) = Some id
    /\ calls (cortexm_mcu_realize ext_ok (cortexm_mcu_class ext_ok) st)
       = E_cpu_arm_init id :: log
    /\ (Cap.cortexm_model
          (Cap.mk CORTEX_M4F 64 20 true true CORTEX_M_FPU_TYPE_FPV4_SP_D16
                  false 96) = CORTEX_M4F ->
        id = "cortex-mf4"%string
        /\ accepted_cpu_model "cortex-m4f" = Some CORTEX_M4F
        /\ accepted_cpu_model id = None
        /\ id <> "cortex-m4f"%string)
    /\ (Cap.cortexm_model
          (Cap.mk CORTEX_M4F 64 20 true true CORTEX_M_FPU_TYPE_FPV4_SP_D16
                  false 96) <> CORTEX_M4F ->
        accepted_cpu_model id
        = Some (Cap.cortexm_model
                  (Cap.mk CORTEX_M4F 64 20 true true
                          CORTEX_M_FPU_TYPE_FPV4_SP_D16 false 96))
        /\ forall arg, CM.cpu_model st = Some arg -> id = arg).
Proof.
  apply (C10_stored_identifier ext_ok
           (device cap_m4_basic (Some "cortex-m4f") 0 0) _ None);
    vm_compute; reflexivity.
Defined.

(** ** The STM32 peripheral tree *)

(** The capability flags of the GPIO banks A-K and of the serial ports
    1-6, in index order. *)
Definition gpio_flags (c : STM32Cap.t) : list bool :=
  [ STM32Cap.has_gpioa c; STM32Cap.has_gpiob c; STM32Cap.has_gpioc c;
    STM32Cap.has_gpiod c; STM32Cap.has_gpioe c; STM32Cap.has_gpiof c;
    STM32Cap.has_gpiog c; STM32Cap.has_gpioh c; STM32Cap.has_gpioi c;
    STM32Cap.has_gpioj c; STM32Cap.has_gpiok c ].

Definition usart_flags (c : STM32Cap.t) : list bool :=
  [ STM32Cap.has_usart1 c; STM32Cap.has_usart2 c; STM32Cap.has_usart3 c;
    STM32Cap.has_uart4 c; STM32Cap.has_uart5 c; STM32Cap.has_usart6 c ].

(** Which entries of a table of device pointers are non-NULL. *)
Definition present_vec (l : list (option DeviceState)) : list bool :=
  map (fun o => match o with Some _ => true | None => false end) l.

(** The index of the highest enabled flag, counting from [i]. *)
Fixpoint highest_enabled_from (i : nat) (flags : list bool) : option nat :=
  match flags with
  | [] => None
  | f :: fs =>
      match highest_enabled_from (S i) fs with
      | Some j => Some j
      | None => if f then Some i else None
      end
  end.

(** The tally in the spec's words: one plus the index of the
    highest-lettered enabled bank, 0 when no bank is enabled. *)
Definition gpio_tally_spec (flags : list bool) : Z :=
  match highest_enabled_from 0 flags with
  | Some j => Z.of_nat j + 1
  | None => 0
  end.

(** One GPIO block, as a state update. *)
Definition gpio_step (flag : bool) (index tally : Z) (s : STM32.t) : STM32.t :=
  if flag
  then STM32.set_num_gpio tally (STM32.set_gpio index (Dev_gpio index) s)
  else s.

(** One USART block, as a state update. *)
Definition usart_step (flag : bool) (index : Z) (s : STM32.t) : STM32.t :=
  if flag
  then STM32.set_usart index
         (Dev_object (snprintf 10 ("usart[" ++ usart_digit index ++ "]"))
                     TYPE_STM32_USART) s
  else s.

(** The GPIO blocks and the USART blocks, as state updates. *)
Definition gpio_chain (c : STM32Cap.t) (s : STM32.t) : STM32.t :=
  gpio_step (STM32Cap.has_gpiok c) 10 11
  (gpio_step (STM32Cap.has_gpioj c) 9 10
  (gpio_step (STM32Cap.has_gpioi c) 8 9
  (gpio_step (STM32Cap.has_gpioh c) 7 8
  (gpio_step (STM32Cap.has_gpiog c) 6 7
  (gpio_step (STM32Cap.has_gpiof c) 5 6
  (gpio_step (STM32Cap.has_gpioe c) 4 5
  (gpio_step (STM32Cap.has_gpiod c) 3 4
  (gpio_step (STM32Cap.has_gpioc c) 2 3
  (gpio_step (STM32Cap.has_gpiob c) 1 2
  (gpio_step (STM32Cap.has_gpioa c) 0 1
  (STM32.set_num_gpio 0 s))))))))))).

Definition usart_chain (c : STM32Cap.t) (s : STM32.t) : STM32.t :=
  usart_step (STM32Cap.has_usart6 c) 5
  (usart_step (STM32Cap.has_uart5 c) 4
  (usart_step (STM32Cap.has_uart4 c) 3
  (usart_step (STM32Cap.has_usart3 c) 2
  (usart_step (STM32Cap.has_usart2 c) 1
  (usart_step (STM32Cap.has_usart1 c) 0 s))))).

(** The blocks from RCC to EXTI, as a state update. *)
Definition fixed_state (c : STM32Cap.t) (s : STM32.t) : STM32.t :=
  let s := STM32.set_rcc (Dev_object "rcc" TYPE_STM32_RCC) s in
  let s := STM32.set_flash (Dev_object "flash" TYPE_STM32_FLASH) s in
  let s := if STM32Cap.has_pwr c
           then STM32.set_pwr (Dev_object "pwr" TYPE_STM32_PWR) s else s in
  let s := if STM32Cap.has_syscfg c
           then STM32.set_syscfg (Dev_object "syscfg" TYPE_STM32_SYSCFG) s
           else s in
  STM32.set_exti (Dev_object "exti" TYPE_STM32_EXTI) s.

Definition is_bitband_init (e : event) : bool :=
  match e with E_bitband_init _ _ => true | _ => false end.

#[local] Arguments snprintf : simpl never.
#[local] Arguments usart_digit : simpl never.
#[local] Arguments fmt_d : simpl never.
#[local] Arguments Z.geb : simpl never.

Lemma outcome_gpio_block (flag : bool) (index tally : Z) (s : STM32.t) :
  outcome (when flag (fun state =>
             state <- create_gpio state index ;;
             ret (STM32.set_num_gpio tally state)) s)
  = Ok (gpio_step flag index tally s).
Proof. destruct flag; reflexivity. Qed.

Lemma outcome_realize_gpios (c : STM32Cap.t) (s : STM32.t) :
  outcome (realize_gpios c s) = Ok (gpio_chain c s).
Proof.
  unfold realize_gpios, gpio_chain. cbv zeta.
  repeat (rewrite outcome_bind, outcome_gpio_block).
  apply outcome_gpio_block.
Qed.

Lemma create_usart_Ok (ext : Externals) (s s' : STM32.t) (index : Z) :
  outcome (create_usart ext s index) = Ok s' ->
  s' = usart_step true index s.
Proof.
  unfold create_usart. cbv zeta.
  repeat rewrite outcome_bind_emit.
  destruct (to_int index >=? MAX_SERIAL_PORTS ext); [discriminate|].
  rewrite outcome_bind.
  destruct (serial_hds ext index) as [chr|]; simpl.
  - intros [= <-]. reflexivity.
  - destruct (qemu_chr_new ext _ "null"); simpl; [|discriminate].
    intros [= <-]. reflexivity.
Qed.

Lemma usart_block_Ok (ext : Externals) (flag : bool) (index : Z)
  (s s' : STM32.t) :
  outcome (when flag (fun state => create_usart ext state index) s) = Ok s' ->
  s' = usart_step flag index s.
Proof.
  destruct flag; simpl.
  - apply create_usart_Ok.
  - intros [= <-]. reflexivity.
Qed.

Lemma realize_usarts_Ok (ext : Externals) (c : STM32Cap.t) (s s' : STM32.t) :
  outcome (realize_usarts ext c s) = Ok s' -> s' = usart_chain c s.
Proof.
  unfold realize_usarts, usart_chain. cbv zeta. intros H.
  repeat match type of H with
         | outcome (bind ?m _) = Ok _ =>
             rewrite outcome_bind in H;
             let E := fresh "E" in
             destruct (outcome m) eqn:E; [|discriminate];
             apply usart_block_Ok in E; subst
         end.
  apply usart_block_Ok in H. exact H.
Qed.

Lemma outcome_realize_fixed (c : STM32Cap.t) (s : STM32.t) :
  outcome (realize_fixed c s) = Ok (fixed_state c s).
Proof.
  unfold realize_fixed, fixed_state.
  destruct c as [pb hsi lsi pwr syscfg ? ? ? ? ? ? ? ? ? ? ? ? ? ? ? ? ?].
  destruct pb, pwr, syscfg; reflexivity.
Qed.

Lemma bitband_realize_fixed (c : STM32Cap.t) (s : STM32.t) :
  filter (fun e => is_bitband_init e = true) (calls (realize_fixed c s))
  = if STM32Cap.has_periph_bitband c
    then [E_bitband_init "periph-bitband" 0x40000000] else [].
Proof.
  unfold realize_fixed.
  destruct c as [pb hsi lsi pwr syscfg ? ? ? ? ? ? ? ? ? ? ? ? ? ? ? ? ?].
  destruct pb, pwr, syscfg; reflexivity.
Qed.

Lemma bitband_realize_gpios (c : STM32Cap.t) (s : STM32.t) :
  filter (fun e => is_bitband_init e = true) (calls (realize_gpios c s)) = [].
Proof.
  unfold realize_gpios. cbv zeta.
  repeat (rewrite calls_bind, outcome_gpio_block, filter_app).
  repeat match goal with
         | |- context [when ?f _ ?s] => destruct f; cbn
         end; reflexivity.
Qed.

Lemma bitband_create_usart (ext : Externals) (s : STM32.t) (index : Z) :
  filter (fun e => is_bitband_init e = true) (calls (create_usart ext s index))
  = [].
Proof.
  unfold create_usart. cbv zeta.
  repeat rewrite calls_bind_emit. cbn [filter is_bitband_init].
  destruct (to_int index >=? MAX_SERIAL_PORTS ext); [reflexivity|].
  rewrite calls_bind.
  destruct (serial_hds ext index) as [chr|]; [reflexivity|].
  rewrite calls_bind_emit.
  destruct (qemu_chr_new ext _ "null"); reflexivity.
Qed.

Lemma bitband_bind {A B : Type} (m : M A) (k : A -> M B) :
  filter (fun e => is_bitband_init e = true) (calls m) = [] ->
  (forall a, filter (fun e => is_bitband_init e = true) (calls (k a)) = []) ->
  filter (fun e => is_bitband_init e = true) (calls (bind m k)) = [].
Proof.
  intros Hm Hk. rewrite calls_bind, filter_app, Hm.
  destruct (outcome m); [apply Hk|reflexivity].
Qed.

Lemma bitband_realize_usarts (ext : Externals) (c : STM32Cap.t) (s : STM32.t) :
  filter (fun e => is_bitband_init e = true) (calls (realize_usarts ext c s))
  = [].
Proof.
  assert (Hw : forall f i s0,
             filter (fun e => is_bitband_init e = true)
               (calls (when f (fun state => create_usart ext state i) s0))
             = []).
  { intros [] i s0; [apply bitband_create_usart|reflexivity]. }
  unfold realize_usarts. cbv zeta.
  repeat (apply bitband_bind; [apply Hw|intros ?]).
  apply Hw.
Qed.

(** What a run of [stm32_mcu_realize_callback] that completes has
    established: the parent realize returned without error, and the
    peripheral blocks ran in order on its state. *)
Lemma stm32_mcu_realize_Ok (ext : Externals)
  (parent_realize : CM.t -> M (CM.t * option Error)) (st st' : STM32.t) :
  outcome (stm32_mcu_realize_callback ext parent_realize st) = Ok (st', None) ->
  exists (cm' : CM.t) (c : STM32Cap.t) (vendor : list event),
    outcome (parent_realize (STM32.parent_obj st)) = Ok (cm', None)
    /\ STM32.param_capabilities st = Some c
    /\ st' = usart_chain c
               (gpio_chain c
                  (fixed_state c
                     (STM32.set_capabilities c
                        (STM32.set_parent_obj cm' st))))
    /\ calls (stm32_mcu_realize_callback ext parent_realize st)
       = calls (parent_realize (STM32.parent_obj st)) ++ vendor
    /\ filter (fun e => is_bitband_init e = true) vendor
       = if STM32Cap.has_periph_bitband c
         then [E_bitband_init "periph-bitband" 0x40000000] else [].
Proof.
  unfold stm32_mcu_realize_callback.
  rewrite outcome_bind, calls_bind.
  destruct (outcome (parent_realize (STM32.parent_obj st)))
    as [[cm' [e|]]|]; cbn [fst snd]; try discriminate.
  change (STM32.param_capabilities (STM32.set_parent_obj cm' st))
    with (STM32.param_capabilities st).
  destruct (STM32.param_capabilities st) as [c|]; [|discriminate].
  set (s0 := STM32.set_capabilities c (STM32.set_parent_obj cm' st)).
  rewrite outcome_bind, calls_bind, outcome_realize_fixed.
  rewrite outcome_bind, calls_bind, outcome_realize_gpios.
  rewrite outcome_bind, calls_bind.
  destruct (outcome (realize_usarts ext c (gpio_chain c (fixed_state c s0))))
    as [s3|] eqn:E3; [|discriminate].
  apply realize_usarts_Ok in E3. cbn [outcome calls ret fst snd].
  intros [= <-]. exists cm', c. eexists.
  split; [reflexivity|]. split; [reflexivity|]. split; [exact E3|].
  split; [reflexivity|].
  rewrite !filter_app, bitband_realize_fixed, bitband_realize_gpios,
    bitband_realize_usarts.
  destruct (STM32Cap.has_periph_bitband c); reflexivity.
Qed.

(** Example STM32 parts and a fresh device. *)
Definition stm32cap (pb pwr syscfg : bool) (gpio usart : list bool)
  : STM32Cap.t :=
  let g i := nth i gpio false in
  let u i := nth i usart false in
  STM32Cap.mk pb 8000000 40000 pwr syscfg
    (g 0%nat) (g 1%nat) (g 2%nat) (g 3%nat) (g 4%nat) (g 5%nat) (g 6%nat)
    (g 7%nat) (g 8%nat) (g 9%nat) (g 10%nat)
    (u 0%nat) (u 1%nat) (u 2%nat) (u 3%nat) (u 4%nat) (u 5%nat).

(** No optional peripheral at all. *)
Definition scap_none : STM32Cap.t := stm32cap false false false [] [].

(** GPIO A and C, no B; USART 1. *)
Definition scap_ac : STM32Cap.t :=
  stm32cap false false false [true; false; true] [true].

Definition machine0 : MachineState := mkMachineState (Some "image.elf") None.

Definition stm32_device (c : STM32Cap.t) : STM32.t :=
  STM32.new (device cap_m3 None 0 0) (Some c).

(** The chip [stm32_construct] returns, the device itself if it fails. *)
Definition constructed (ext : Externals) (c : STM32Cap.t) : STM32.t :=
  match outcome (stm32_construct ext machine0 (stm32_device c)) with
  | Ok s => s
  | Fatal _ => stm32_device c
  end.

(** ** The GPIO tally *)

Lemma num_gpio_usart_chain (c : STM32Cap.t) (s : STM32.t) :
  STM32.num_gpio (usart_chain c s) = STM32.num_gpio s.
Proof.
  unfold usart_chain, usart_step.
  repeat match goal with |- context [if ?f then _ else _] => destruct f end;
    reflexivity.
Qed.

Lemma num_gpio_gpio_chain (c : STM32Cap.t) (s : STM32.t) :
  STM32.num_gpio (gpio_chain c s) = gpio_tally_spec (gpio_flags c).
Proof.
  unfold gpio_chain, gpio_step, gpio_flags.
  destruct (STM32Cap.has_gpiok c); [reflexivity|].
  destruct (STM32Cap.has_gpioj c); [reflexivity|].
  destruct (STM32Cap.has_gpioi c); [reflexivity|].
  destruct (STM32Cap.has_gpioh c); [reflexivity|].
  destruct (STM32Cap.has_gpiog c); [reflexivity|].
  destruct (STM32Cap.has_gpiof c); [reflexivity|].
  destruct (STM32Cap.has_gpioe c); [reflexivity|].
  destruct (STM32Cap.has_gpiod c); [reflexivity|].
  destruct (STM32Cap.has_gpioc c); [reflexivity|].
  destruct (STM32Cap.has_gpiob c); [reflexivity|].
  destruct (STM32Cap.has_gpioa c); reflexivity.
Qed.

(** C8: after construction the GPIO tally is one plus the index of the
    highest-lettered enabled bank, whatever the lower banks are, and 0 when
    no bank is enabled; with only A and C enabled it is 3. *)
Theorem C8_gpio_tally (ext : Externals)
  (parent_realize : CM.t -> M (CM.t * option Error)) (st st' : STM32.t)
  (c : STM32Cap.t) :
  outcome (stm32_mcu_realize_callback ext parent_realize st) = Ok (st', None) ->
  STM32.param_capabilities st = Some c ->
  STM32.num_gpio st' = gpio_tally_spec (gpio_flags c)
  /\ (gpio_flags c = replicate 11 false -> STM32.num_gpio st' = 0)
  /\ gpio_tally_spec
       [true; false; true; false; false; false; false; false; false; false;
        false] = 3.
Proof.
  intros H Hc. apply stm32_mcu_realize_Ok in H.
  destruct H as (cm' & c' & vendor & _ & Hc' & -> & _).
  assert (c' = c) as -> by congruence.
  rewrite num_gpio_usart_chain, num_gpio_gpio_chain.
  split; [reflexivity|]. split; [|reflexivity].
  intros ->. reflexivity.
Qed.

Lemma C8_witness :
  STM32.num_gpio (constructed ext_ok scap_ac)
  = gpio_tally_spec (gpio_flags scap_ac)
  /\ (gpio_flags scap_ac = replicate 11 false ->
      STM32.num_gpio (constructed ext_ok scap_ac) = 0)
  /\ gpio_tally_spec
       [true; false; true; false; false; false; false; false; false; false;
        false] = 3.
Proof.
  apply (C8_gpio_tally ext_ok (cm_device_parent_realize ext_ok)
           (stm32_device scap_ac) (constructed ext_ok scap_ac) scap_ac);
    vm_compute; reflexivity.
Defined.

(** The spec's example, run: GPIO A and C enabled, B disabled. *)
Example gpio_a_c_tally :
  STM32.num_gpio (constructed ext_ok scap_ac) = 3
  /\ present_vec (STM32.gpio (constructed ext_ok scap_ac))
     = [true; false; true; false; false; false; false; false; false; false;
        false].
Proof. vm_compute. split; reflexivity. Qed.

(** ** Presence of peripherals *)

(** The entries of the peripheral table. *)
Inductive peripheral :=
| P_rcc | P_flash | P_pwr | P_syscfg | P_exti
| P_gpio (i : nat) | P_usart (i : nat).

(** The handle the chip instance holds for a peripheral, if any. *)
Definition handle (s : STM32.t) (p : peripheral) : option DeviceState :=
  match p with
  | P_rcc => STM32.rcc s
  | P_flash => STM32.flash s
  | P_pwr => STM32.pwr s
  | P_syscfg => STM32.syscfg s
  | P_exti => STM32.exti s
  | P_gpio i => default None (STM32.gpio s !! i)
  | P_usart i => default None (STM32.usart s !! i)
  end.

Definition present (s : STM32.t) (p : peripheral) : bool :=
  match handle s p with Some _ => true | None => false end.

(** The capability flag the code tests before it creates a peripheral;
    [None] where it tests none. *)
Definition capability_flag (c : STM32Cap.t) (p : peripheral) : option bool :=
  match p with
  | P_pwr => Some (STM32Cap.has_pwr c)
  | P_syscfg => Some (STM32Cap.has_syscfg c)
  | P_gpio i => gpio_flags c !! i
  | P_usart i => usart_flags c !! i
  | P_rcc | P_flash | P_exti => None
  end.

(** A peripheral's flag is set. *)
Definition flag_set (c : STM32Cap.t) (p : peripheral) : bool :=
  default false (capability_flag c p).

(** The peripherals created whatever the descriptor says. *)
Definition always_created (p : peripheral) : bool :=
  match p with P_rcc | P_flash | P_exti => true | _ => false end.

(** A device whose peripheral table is still empty. *)
Definition fresh (s : STM32.t) : Prop :=
  STM32.rcc s = None /\ STM32.flash s = None /\ STM32.pwr s = None
  /\ STM32.syscfg s = None /\ STM32.exti s = None
  /\ STM32.gpio s = replicate STM32_MAX_GPIO None
  /\ STM32.usart s = replicate STM32_MAX_USART None.

Lemma present_vec_lookup (l : list (option DeviceState)) (i : nat) :
  match default None (l !! i) with Some _ => true | None => false end
  = default false (present_vec l !! i).
Proof.
  unfold present_vec. rewrite list_lookup_fmap.
  destruct (l !! i) as [[d|]|]; reflexivity.
Qed.

Lemma gpio_usart_chain (c : STM32Cap.t) (s : STM32.t) :
  STM32.gpio (usart_chain c s) = STM32.gpio s.
Proof.
  unfold usart_chain, usart_step.
  repeat match goal with |- context [if ?f then _ else _] => destruct f end;
    reflexivity.
Qed.

Lemma present_gpio_chain (c : STM32Cap.t) (s : STM32.t) :
  STM32.gpio s = replicate STM32_MAX_GPIO None ->
  present_vec (STM32.gpio (gpio_chain c s)) = gpio_flags c.
Proof.
  intros Hs. unfold gpio_chain, gpio_step, gpio_flags.
  destruct (STM32Cap.has_gpioa c), (STM32Cap.has_gpiob c),
    (STM32Cap.has_gpioc c), (STM32Cap.has_gpiod c), (STM32Cap.has_gpioe c),
    (STM32Cap.has_gpiof c), (STM32Cap.has_gpiog c), (STM32Cap.has_gpioh c),
    (STM32Cap.has_gpioi c), (STM32Cap.has_gpioj c), (STM32Cap.has_gpiok c);
    cbn [STM32.gpio STM32.set_gpio STM32.set_num_gpio]; rewrite Hs;
    reflexivity.
Qed.

Lemma present_usart_chain (c : STM32Cap.t) (s : STM32.t) :
  STM32.usart s = replicate STM32_MAX_USART None ->
  present_vec (STM32.usart (usart_chain c s)) = usart_flags c.
Proof.
  intros Hs. unfold usart_chain, usart_step, usart_flags.
  destruct (STM32Cap.has_usart1 c), (STM32Cap.has_usart2 c),
    (STM32Cap.has_usart3 c), (STM32Cap.has_uart4 c), (STM32Cap.has_uart5 c),
    (STM32Cap.has_usart6 c);
    cbn [STM32.usart STM32.set_usart]; rewrite Hs; reflexivity.
Qed.

Lemma fields_usart_chain (c : STM32Cap.t) (s : STM32.t) :
  STM32.rcc (usart_chain c s) = STM32.rcc s
  /\ STM32.flash (usart_chain c s) = STM32.flash s
  /\ STM32.pwr (usart_chain c s) = STM32.pwr s
  /\ STM32.syscfg (usart_chain c s) = STM32.syscfg s
  /\ STM32.exti (usart_chain c s) = STM32.exti s.
Proof.
  unfold usart_chain, usart_step.
  repeat match goal with |- context [if ?f then _ else _] => destruct f end;
    repeat split.
Qed.

Lemma fields_gpio_chain (c : STM32Cap.t) (s : STM32.t) :
  STM32.rcc (gpio_chain c s) = STM32.rcc s
  /\ STM32.flash (gpio_chain c s) = STM32.flash s
  /\ STM32.pwr (gpio_chain c s) = STM32.pwr s
  /\ STM32.syscfg (gpio_chain c s) = STM32.syscfg s
  /\ STM32.exti (gpio_chain c s) = STM32.exti s
  /\ STM32.usart (gpio_chain c s) = STM32.usart s.
Proof.
  unfold gpio_chain, gpio_step.
  repeat match goal with |- context [if ?f then _ else _] => destruct f end;
    repeat split.
Qed.

Lemma fields_fixed_state (c : STM32Cap.t) (s : STM32.t) :
  STM32.rcc (fixed_state c s) = Some (Dev_object "rcc" TYPE_STM32_RCC)
  /\ STM32.flash (fixed_state c s)
     = Some (Dev_object "flash" TYPE_STM32_FLASH)
  /\ STM32.pwr (fixed_state c s)
     = (if STM32Cap.has_pwr c then Some (Dev_object "pwr" TYPE_STM32_PWR)
        else STM32.pwr s)
  /\ STM32.syscfg (fixed_state c s)
     = (if STM32Cap.has_syscfg c
        then Some (Dev_object "syscfg" TYPE_STM32_SYSCFG)
        else STM32.syscfg s)
  /\ STM32.exti (fixed_state c s) = Some (Dev_object "exti" TYPE_STM32_EXTI)
  /\ STM32.gpio (fixed_state c s) = STM32.gpio s
  /\ STM32.usart (fixed_state c s) = STM32.usart s.
Proof.
  unfold fixed_state. cbv zeta.
  destruct (STM32Cap.has_pwr c), (STM32Cap.has_syscfg c); repeat split.
Qed.

(** C2 (as amended): after construction on a fresh device, the power
    controller, the system-configuration controller, every GPIO bank and
    every serial port are present exactly when their capability flag is
    set; the clock/reset controller, the Flash controller and the
    external-interrupt controller (EXTI) are present whatever the
    descriptor says, since the code tests no flag for them. *)
Theorem C2_peripheral_presence (ext : Externals)
  (parent_realize : CM.t -> M (CM.t * option Error)) (st st' : STM32.t)
  (c : STM32Cap.t) :
  outcome (stm32_mcu_realize_callback ext parent_realize st) = Ok (st', None) ->
  STM32.param_capabilities st = Some c ->
  fresh st ->
  forall p : peripheral,
    present st' p = match capability_flag c p with
                    | Some flag => flag
                    | None => always_created p
                    end.
Proof.
  intros H Hc (Hrcc & Hflash & Hpwr & Hsys & Hexti & Hgpio & Husart).
  apply stm32_mcu_realize_Ok in H.
  destruct H as (cm' & c' & vendor & _ & Hc' & -> & _).
  assert (c' = c) as -> by congruence.
  set (s0 := STM32.set_capabilities c (STM32.set_parent_obj cm' st)).
  destruct (fields_usart_chain c (gpio_chain c (fixed_state c s0)))
    as (U1 & U2 & U3 & U4 & U5).
  destruct (fields_gpio_chain c (fixed_state c s0))
    as (G1 & G2 & G3 & G4 & G5 & G6).
  destruct (fields_fixed_state c s0) as (F1 & F2 & F3 & F4 & F5 & F6 & F7).
  intros p. unfold present, handle.
  destruct p as [| | | | |i|i]; cbn [capability_flag always_created].
  - rewrite U1, G1, F1. reflexivity.
  - rewrite U2, G2, F2. reflexivity.
  - rewrite U3, G3, F3. destruct (STM32Cap.has_pwr c); [reflexivity|].
    subst s0. cbn. rewrite Hpwr. reflexivity.
  - rewrite U4, G4, F4. destruct (STM32Cap.has_syscfg c); [reflexivity|].
    subst s0. cbn. rewrite Hsys. reflexivity.
  - rewrite U5, G5, F5. reflexivity.
  - rewrite present_vec_lookup, gpio_usart_chain, present_gpio_chain.
    + destruct (gpio_flags c !! i); reflexivity.
    + rewrite F6. exact Hgpio.
  - rewrite present_vec_lookup, present_usart_chain.
    + destruct (usart_flags c !! i); reflexivity.
    + rewrite G6, F7. exact Husart.
Qed.

Lemma fresh_stm32_device (c : STM32Cap.t) : fresh (stm32_device c).
Proof. repeat split. Qed.

Lemma C2_witness :
  let flag_or_always p :=
    match capability_flag scap_ac p with
    | Some flag => flag
    | None => always_created p
    end in
  present (constructed ext_ok scap_ac) (P_gpio 2) = flag_or_always (P_gpio 2)
  /\ present (constructed ext_ok scap_ac) (P_gpio 1)
     = flag_or_always (P_gpio 1)
  /\ present (constructed ext_ok scap_ac) (P_usart 0)
     = flag_or_always (P_usart 0)
  /\ present (constructed ext_ok scap_ac) P_pwr = flag_or_always P_pwr
  /\ present (constructed ext_ok scap_ac) P_exti = flag_or_always P_exti.
Proof.
  pose proof (C2_peripheral_presence ext_ok (cm_device_parent_realize ext_ok)
                (stm32_device scap_ac) (constructed ext_ok scap_ac) scap_ac)
    as H.
  cbv zeta. repeat split; apply H;
    first [apply fresh_stm32_device | vm_compute; reflexivity].
Defined.

(** C2 as stated fails for EXTI: with a descriptor in which no capability
    flag is set, the constructed chip still holds an EXTI handle. *)
Lemma C2_counterexample :
  exists st' : STM32.t,
    outcome (stm32_construct ext_ok machine0 (stm32_device scap_none)) = Ok st'
    /\ flag_set scap_none P_exti = false
    /\ gpio_flags scap_none = replicate 11 false
    /\ usart_flags scap_none = replicate 6 false
    /\ STM32Cap.has_pwr scap_none = false
    /\ STM32Cap.has_syscfg scap_none = false
    /\ STM32Cap.has_periph_bitband scap_none = false
    /\ present st' P_exti = true
    /\ STM32.exti st' = Some (Dev_object "exti" TYPE_STM32_EXTI).
Proof.
  eexists. split; [vm_compute; reflexivity|]. repeat split.
Qed.

(** ** Bit-band regions *)

(** C3 (as amended): the generic composer creates the bit-band shadow of
    the SRAM window (device base 0x20000000, mapped at 0x22000000) for
    every chip state, whatever the descriptor requests; the descriptor's
    bit-band flag decides only the bit-band window over the peripheral
    range at 0x40000000, which the vendor layer creates exactly when the
    flag is set. *)
Theorem C3_bitband_regions (ext : Externals)
  (parent_realize : CM.t -> M (CM.t * option Error)) (st st' : STM32.t)
  (c : STM32Cap.t) :
  outcome (stm32_mcu_realize_callback ext parent_realize st) = Ok (st', None) ->
  STM32.param_capabilities st = Some c ->
  (forall cm_state : CM.t,
      exists before after : list event,
        calls (cortexm_mcu_memory_regions_create cm_state)
        = before
            ++ [E_qdev_create TYPE_BITBAND;
                E_qdev_prop_set_uint32 (Dev_qdev TYPE_BITBAND) "base"
                                       0x20000000;
                E_qdev_init_nofail (Dev_qdev TYPE_BITBAND);
                E_sysbus_mmio_map (Dev_qdev TYPE_BITBAND) 0 0x22000000]
            ++ after)
  /\ exists vendor : list event,
      calls (stm32_mcu_realize_callback ext parent_realize st)
      = calls (parent_realize (STM32.parent_obj st)) ++ vendor
      /\ (In (E_bitband_init "periph-bitband" 0x40000000) vendor
          <-> STM32Cap.has_periph_bitband c = true)
      /\ forall name address,
          In (E_bitband_init name address) vendor ->
          name = "periph-bitband"%string /\ address = 0x40000000.
Proof.
  intros H Hc. split.
  - intros cm_state. rewrite calls_memory_regions_create.
    eexists [_; _], [_]. reflexivity.
  - apply stm32_mcu_realize_Ok in H.
    destruct H as (cm' & c' & vendor & _ & Hc' & _ & Hcalls & Hbb).
    assert (c' = c) as -> by congruence.
    exists vendor. split; [exact Hcalls|].
    assert (Hin : forall e, is_bitband_init e = true ->
              (In e vendor
               <-> In e (if STM32Cap.has_periph_bitband c
                         then [E_bitband_init "periph-bitband" 0x40000000]
                         else []))).
    { intros e He. rewrite <- Hbb, <- !list_elem_of_In, list_elem_of_filter.
      tauto. }
    split.
    + rewrite (Hin (E_bitband_init "periph-bitband" 0x40000000) eq_refl).
      destruct (STM32Cap.has_periph_bitband c); simpl; [tauto|].
      split; [tauto|discriminate].
    + intros name address Hi.
      apply (Hin (E_bitband_init name address) eq_refl) in Hi.
      destruct (STM32Cap.has_periph_bitband c); simpl in Hi;
        [|contradiction].
      destruct Hi as [[= <- <-]|[]]. split; reflexivity.
Qed.

Lemma C3_witness :
  (forall cm_state : CM.t,
      exists before after : list event,
        calls (cortexm_mcu_memory_regions_create cm_state)
        = before
            ++ [E_qdev_create TYPE_BITBAND;
                E_qdev_prop_set_uint32 (Dev_qdev TYPE_BITBAND) "base"
                                       0x20000000;
                E_qdev_init_nofail (Dev_qdev TYPE_BITBAND);
                E_sysbus_mmio_map (Dev_qdev TYPE_BITBAND) 0 0x22000000]
            ++ after)
  /\ exists vendor : list event,
      calls (stm32_mcu_realize_callback ext_ok
               (cm_device_parent_realize ext_ok) (stm32_device scap_ac))
      = calls (cm_device_parent_realize ext_ok
                 (STM32.parent_obj (stm32_device scap_ac))) ++ vendor
      /\ (In (E_bitband_init "periph-bitband" 0x40000000) vendor
          <-> STM32Cap.has_periph_bitband scap_ac = true)
      /\ forall name address,
          In (E_bitband_init name address) vendor ->
          name = "periph-bitband"%string /\ address = 0x40000000.
Proof.
  apply (C3_bitband_regions ext_ok (cm_device_parent_realize ext_ok)
           (stm32_device scap_ac) (constructed ext_ok scap_ac) scap_ac).
  - vm_compute. reflexivity.
  - reflexivity.
Defined.

(** C3 as stated fails: a descriptor that requests no bit-banding still
    gets the bit-band shadow over SRAM, mapped at 0x22000000. *)
Lemma C3_counterexample :
  STM32Cap.has_periph_bitband scap_none = false
  /\ In (E_sysbus_mmio_map (Dev_qdev TYPE_BITBAND) 0 0x22000000)
        (calls (stm32_construct ext_ok machine0 (stm32_device scap_none)))
  /\ In (E_qdev_prop_set_uint32 (Dev_qdev TYPE_BITBAND) "base" 0x20000000)
        (calls (stm32_construct ext_ok machine0 (stm32_device scap_none))).
Proof.
  split; [reflexivity|].
  split; vm_compute; repeat (first [left; reflexivity | right]).
Qed.

(** ** Reset *)

(** The devices a table of pointers holds, in index order. *)
Definition devices_of (l : list (option DeviceState)) : list DeviceState :=
  omap id l.

Lemma for_upto_reset_from (l : list (option DeviceState)) (n a : nat) :
  fold_right
    (fun i k => reset_if_present (default None (l !! i)) ;;; k)
    (ret tt) (seq a n)
  = (map E_device_reset (devices_of (take n (drop a l))), Ok tt).
Proof.
  revert a. induction n as [|n IH]; intros a.
  - reflexivity.
  - cbn [seq fold_right]. rewrite IH.
    destruct (l !! a) as [o|] eqn:E.
    + rewrite (drop_S l o a E). cbn [take devices_of omap].
      destruct o as [d|]; reflexivity.
    + apply lookup_ge_None in E.
      rewrite (drop_ge l a) by exact E.
      rewrite (drop_ge l (S a)) by lia.
      rewrite take_nil. reflexivity.
Qed.

Lemma for_upto_reset (l : list (option DeviceState)) (n : nat) :
  for_upto n (fun i => reset_if_present (default None (l !! i)))
  = (map E_device_reset (devices_of (take n l)), Ok tt).
Proof. unfold for_upto. rewrite for_upto_reset_from. reflexivity. Qed.

(** The order C5 states: image, clock/reset controller, Flash
    controller, GPIO banks, serial ports, and the core last. *)
Definition claimed_reset_order (s : STM32.t) : list event :=
  [E_rom_reset]
  ++ map E_device_reset
       (option_list (STM32.rcc s) ++ option_list (STM32.flash s)
        ++ devices_of (take STM32_MAX_GPIO (STM32.gpio s))
        ++ devices_of (take STM32_MAX_USART (STM32.usart s)))
  ++ match CM.cpu (STM32.parent_obj s) with
     | Some cpu => [E_cpu_reset cpu]
     | None => []
     end.

(** C5 (as amended): reset is split over two callbacks.  The vendor
    device-reset callback calls the parent class's reset and then resets,
    in this order, the clock/reset controller, the Flash controller, every
    present GPIO bank in ascending index order and every present serial
    port in ascending index order; it makes no call after the last serial
    port.  The core reset hook re-materializes the boot image and then at
    once resets the processor core. *)
Theorem C5_reset_order (s : STM32.t) (cm_state : CM.t) :
  stm32_mcu_reset_callback s
  = (E_parent_reset TYPE_STM32_MCU
       :: map E_device_reset
            (option_list (STM32.rcc s) ++ option_list (STM32.flash s)
             ++ devices_of (take STM32_MAX_GPIO (STM32.gpio s))
             ++ devices_of (take STM32_MAX_USART (STM32.usart s))),
     Ok tt)
  /\ calls (cortexm_reset cm_state)
     = E_rom_reset :: match CM.cpu cm_state with
                      | Some cpu => [E_cpu_reset cpu]
                      | None => []
                      end.
Proof.
  split.
  - unfold stm32_mcu_reset_callback. rewrite !for_upto_reset.
    destruct (STM32.rcc s), (STM32.flash s); cbn;
      rewrite ?map_app; reflexivity.
  - unfold cortexm_reset. destruct (CM.cpu cm_state); reflexivity.
Qed.

(** C5 as stated fails: on a constructed chip with GPIO A and C and
    USART 1, the vendor reset callback starts with the parent reset and
    ends with the serial port; the image and the core are handled by the
    separate core hook, back to back.  Neither callback, nor the two run
    one after the other in either order, gives the claimed order. *)
Lemma C5_counterexample :
  let s := constructed ext_ok scap_ac in
  let rcc := Dev_object "rcc" TYPE_STM32_RCC in
  let flash := Dev_object "flash" TYPE_STM32_FLASH in
  let usart1 := Dev_object "usart[1]" TYPE_STM32_USART in
  let cpu := ARMCPU_of "cortex-m3" in
  outcome (stm32_construct ext_ok machine0 (stm32_device scap_ac)) = Ok s
  /\ claimed_reset_order s
     = [E_rom_reset; E_device_reset rcc; E_device_reset flash;
        E_device_reset (Dev_gpio 0); E_device_reset (Dev_gpio 2);
        E_device_reset usart1; E_cpu_reset cpu]
  /\ calls (stm32_mcu_reset_callback s)
     = [E_parent_reset TYPE_STM32_MCU; E_device_reset rcc;
        E_device_reset flash; E_device_reset (Dev_gpio 0);
        E_device_reset (Dev_gpio 2); E_device_reset usart1]
  /\ calls (cortexm_reset (STM32.parent_obj s))
     = [E_rom_reset; E_cpu_reset cpu]
  /\ calls (stm32_mcu_reset_callback s) <> claimed_reset_order s
  /\ calls (cortexm_reset (STM32.parent_obj s)) <> claimed_reset_order s
  /\ calls (cortexm_reset (STM32.parent_obj s))
       ++ calls (stm32_mcu_reset_callback s) <> claimed_reset_order s
  /\ calls (stm32_mcu_reset_callback s)
       ++ calls (cortexm_reset (STM32.parent_obj s))
     <> claimed_reset_order s.
Proof.
  cbv zeta.
  split; [vm_compute; reflexivity|].
  split; [vm_compute; reflexivity|].
  split; [vm_compute; reflexivity|].
  split; [vm_compute; reflexivity|].
  repeat split; vm_compute; discriminate.
Qed.

(** * Further properties of the code *)

(** ** The bit-band device *)

Lemma land_lnot_ones (x : Z) (n : Z) :
  0 <= n -> Z.land x (Z.lnot (Z.ones n)) = 2 ^ n * (x / 2 ^ n).
Proof.
  intros Hn. rewrite <- Z.ldiff_land, Z.ldiff_ones_r by lia.
  rewrite Z.shiftl_mul_pow2, Z.shiftr_div_pow2 by lia. lia.
Qed.

(** X1: [cortexm_bitband_init] rounds any 32-bit address down to a
    multiple of 32 MiB, gives that to the bit-band device as its base, and
    maps the device 32 MiB above the base (modulo 2^32). *)
Theorem bitband_init_alignment (address : Z) :
  let base := 2 ^ 25 * (wrap_u32 address / 2 ^ 25) in
  cortexm_bitband_init address
  = ([ E_qdev_create TYPE_BITBAND;
       E_qdev_prop_set_uint32 (Dev_qdev TYPE_BITBAND) "base" base;
       E_qdev_init_nofail (Dev_qdev TYPE_BITBAND);
       E_sysbus_mmio_map (Dev_qdev TYPE_BITBAND) 0
                         (wrap_u32 (base + BITBAND_OFFSET)) ],
     Ok tt)
  /\ base mod 2 ^ 25 = 0
  /\ base <= wrap_u32 address < base + 2 ^ 25.
Proof.
  intros base.
  assert (Hr : 0 <= wrap_u32 address < 2 ^ 32)
    by (unfold wrap_u32; apply Z.mod_pos_bound; lia).
  assert (Hb : wrap_u32 (Z.land (wrap_u32 address)
                                (Z.lnot (BITBAND_OFFSET - 1))) = base).
  { change (BITBAND_OFFSET - 1) with (Z.ones 25).
    rewrite land_lnot_ones by lia. fold base.
    apply wrap_u32_small. subst base.
    pose proof (Z.mul_div_le (wrap_u32 address) (2 ^ 25) ltac:(lia)).
    pose proof (Z.div_pos (wrap_u32 address) (2 ^ 25) ltac:(lia) ltac:(lia)).
    lia. }
  split; [|split].
  - unfold cortexm_bitband_init. cbv zeta. rewrite Hb. reflexivity.
  - subst base. rewrite Z.mul_comm. apply Z.mod_mul. lia.
  - subst base.
    pose proof (Z.mul_div_le (wrap_u32 address) (2 ^ 25) ltac:(lia)).
    pose proof (Z.mul_succ_div_gt (wrap_u32 address) (2 ^ 25) ltac:(lia)).
    lia.
Qed.

(** ** Failures of the generic realize *)

Lemma cpu_model_override_rejected (arg : string) (c : Cap.t) :
  accepted_cpu_model arg = None ->
  cpu_model_override arg c
  = fatal ("Illegal --cpu " ++ arg ++ ", only cortex-m* supported.").
Proof.
  unfold accepted_cpu_model, cpu_model_override.
  repeat match goal with
         | |- context [String.eqb arg ?s] =>
             destruct (String.eqb arg s); [discriminate|]
         end.
  reflexivity.
Qed.

(** X2: a [--cpu] value that is not one of the eight accepted names ends
    the run with "Illegal --cpu <value>, only cortex-m* supported." before
    any call is made to the emulator, and construction returns no chip. *)
Theorem unsupported_cpu_model (ext : Externals) (cm_class : CortexMClass)
  (st : CM.t) (c : Cap.t) (arg : string) :
  CM.capabilities st = Some c ->
  CM.cpu_model st = Some arg ->
  accepted_cpu_model arg = None ->
  cortexm_mcu_realize ext cm_class st
  = ([], Fatal ("Illegal --cpu " ++ arg ++ ", only cortex-m* supported."))
  /\ forall (kernel : option string) (dev : CM.t),
      CM.capabilities dev = Some c ->
      outcome (cortexm_construct ext (mkMachineState kernel (Some arg)) dev)
      = Fatal ("Illegal --cpu " ++ arg ++ ", only cortex-m* supported.").
Proof.
  intros Hc Harg Hrej.
  assert (Hreal : forall cls s, CM.capabilities s = Some c ->
            CM.cpu_model s = Some arg ->
            cortexm_mcu_realize ext cls s
            = ([], Fatal ("Illegal --cpu " ++ arg
                          ++ ", only cortex-m* supported."))).
  { intros cls s Hs Ha. unfold cortexm_mcu_realize. rewrite Hs, Ha.
    rewrite (cpu_model_override_rejected arg c Hrej). reflexivity. }
  split; [apply Hreal; assumption|].
  intros kernel dev Hdev. unfold cortexm_construct, cortexm_mcu_init.
  rewrite outcome_bind, Hreal; [reflexivity| |].
  - cbn [machine_kernel_filename machine_cpu_model].
    destruct kernel; exact Hdev.
  - reflexivity.
Qed.

Lemma unsupported_cpu_model_witness :
  cortexm_mcu_realize ext_ok (cortexm_mcu_class ext_ok)
    (device cap_m3 (Some "cortex-m33") 0 0)
  = ([], Fatal "Illegal --cpu cortex-m33, only cortex-m* supported.")
  /\ forall (kernel : option string) (dev : CM.t),
      CM.capabilities dev = Some cap_m3 ->
      outcome (cortexm_construct ext_ok
                 (mkMachineState kernel (Some "cortex-m33")) dev)
      = Fatal "Illegal --cpu cortex-m33, only cortex-m* supported.".
Proof.
  apply (unsupported_cpu_model ext_ok (cortexm_mcu_class ext_ok)
           (device cap_m3 (Some "cortex-m33") 0 0) cap_m3 "cortex-m33");
    reflexivity.
Defined.





(** ** The image and the reset hook *)

(** X4: without an image, the generic realize completes only in a test
    or debugger session ([qtest_enabled] or [with_gdb]); it then loads
    nothing and registers no reset hook.  Outside such a session,
    construction without an image returns no chip. *)
Theorem missing_image (ext : Externals) (st st' : CM.t) :
  outcome (cortexm_mcu_realize ext (cortexm_mcu_class ext) st)
  = Ok (st', None) ->
  CM.kernel_filename st = None ->
  qtest_enabled ext || with_gdb ext = true
  /\ (forall e, In e (calls (cortexm_mcu_realize ext (cortexm_mcu_class ext) st))
                -> image_event e = false)
  /\ forall (ext' : Externals) (machine : MachineState) (dev : CM.t),
      qtest_enabled ext' = false -> with_gdb ext' = false ->
      machine_kernel_filename machine = None ->
      CM.kernel_filename dev = None ->
      exists msg, outcome (cortexm_construct ext' machine dev) = Fatal msg.
Proof.
  intros H Hk.
  pose proof (cortexm_mcu_realize_Ok _ _ _ _ H)
    as (c0 & c1 & cpu & tail & _ & _ & _ & _ & _ & _ & _ & _ & _ & _ & _ & _
        & _ & _ & _ & Hkf & _).
  pose proof (cortexm_mcu_realize_Ok_log _ _ _ _ H)
    as (c' & _ & _ & _ & _ & _ & Hguard & Hcalls).
  rewrite Hk in Hkf.
  split; [exact (Hguard eq_refl Hkf)|]. split.
  - intros e. rewrite Hcalls, calls_memory_regions_create.
    unfold realize_tail. rewrite Hkf, calls_image_load_no_image by exact Hkf.
    destruct (Cap.has_itm c'); cbn;
      intros He; repeat (destruct He as [<-|He]; [reflexivity|]);
      destruct He.
  - clear. intros ext machine dev Hq Hg Hm Hd.
    destruct (outcome (cortexm_construct ext machine dev)) as [s|msg] eqn:Ho;
      [|exists msg; reflexivity].
    exfalso. unfold cortexm_construct in Ho.
    apply cortexm_mcu_init_Ok in Ho. destruct Ho as (dev' & Ho & Hdev').
    rewrite Hm in Hdev'.
    assert (Hk' : CM.kernel_filename dev' = None).
    { rewrite Hdev'. destruct (machine_cpu_model machine); exact Hd. }
    pose proof (cortexm_mcu_realize_Ok _ _ _ _ Ho)
      as (c0 & c1 & cpu & tail & _ & _ & _ & _ & _ & _ & _ & _ & _ & _ & _ & _
          & _ & _ & _ & Hkf & _).
    pose proof (cortexm_mcu_realize_Ok_log _ _ _ _ Ho)
      as (c' & _ & _ & _ & _ & _ & Hguard & _).
    rewrite Hk' in Hkf. specialize (Hguard eq_refl Hkf).
    rewrite Hq, Hg in Hguard. discriminate.
Qed.

Definition ext_qtest : Externals :=
  mkExternals (fun m => Some (ARMCPU_of m)) None true false
    (fun _ => 4096) (fun _ _ _ => 4096) 4 (fun _ => None)
    (fun n b => Some (Chr n b)).

(** A device with no image configured. *)
Definition device_noimage (c : Cap.t) : CM.t :=
  CM.mk (Some c) None None None 0 0 0 None None [] None None None.

Lemma missing_image_witness :
  qtest_enabled ext_qtest || with_gdb ext_qtest = true
  /\ (forall e,
        In e (calls (cortexm_mcu_realize ext_qtest (cortexm_mcu_class ext_qtest)
                       (device_noimage cap_m3)))
        -> image_event e = false)
  /\ forall (ext' : Externals) (machine : MachineState) (dev : CM.t),
      qtest_enabled ext' = false -> with_gdb ext' = false ->
      machine_kernel_filename machine = None ->
      CM.kernel_filename dev = None ->
      exists msg, outcome (cortexm_construct ext' machine dev) = Fatal msg.
Proof.
  apply (missing_image ext_qtest (device_noimage cap_m3)
           (realized ext_qtest (device_noimage cap_m3)));
    vm_compute; reflexivity.
Defined.

(** The message of the missing-image failure, on a run. *)
Example missing_image_message :
  outcome (cortexm_construct ext_ok (mkMachineState None None)
             (device_noimage cap_m3))
  = Fatal "Guest image must be specified (using -kernel)".
Proof. vm_compute. reflexivity. Qed.

(** X5: a realize that completes registers the core reset hook exactly
    when an image is configured, and then as its very last call. *)
Theorem reset_hook_registration (ext : Externals) (st st' : CM.t) :
  outcome (cortexm_mcu_realize ext (cortexm_mcu_class ext) st)
  = Ok (st', None) ->
  (In E_qemu_register_reset
      (calls (cortexm_mcu_realize ext (cortexm_mcu_class ext) st))
   <-> is_Some (CM.kernel_filename st))
  /\ (is_Some (CM.kernel_filename st) ->
      last (calls (cortexm_mcu_realize ext (cortexm_mcu_class ext) st))
      = Some E_qemu_register_reset).
Proof.
  intros H.
  pose proof (cortexm_mcu_realize_Ok _ _ _ _ H)
    as (c0 & c1 & cpu & tail & _ & _ & _ & _ & _ & _ & _ & _ & _ & _ & _ & _
        & _ & _ & _ & Hkf & _).
  pose proof (cortexm_mcu_realize_Ok_log _ _ _ _ H)
    as (c' & _ & _ & _ & _ & _ & _ & Hcalls).
  rewrite Hcalls, calls_memory_regions_create. unfold realize_tail.
  rewrite Hkf. split.
  - split.
    + intros Hin. destruct (CM.kernel_filename st); [eauto|].
      exfalso. rewrite app_nil_r in Hin.
      cbn in Hin. repeat (destruct Hin as [Hin|Hin]; [discriminate|]).
      apply in_app_or in Hin. destruct Hin as [Hin|Hin].
      * destruct (Cap.has_itm c'); cbn in Hin;
          repeat (destruct Hin as [Hin|Hin]; [discriminate|]); destruct Hin.
      * apply calls_image_load_kinds in Hin.
        destruct Hin as [[f Hf]|[f [a [m Hf]]]]; discriminate.
    + intros [k Hk]. rewrite Hk.
      apply in_cons, in_or_app. right.
      apply in_or_app. right. apply in_or_app. right.
      apply in_or_app. right. left. reflexivity.
  - intros [k Hk]. rewrite Hk.
    rewrite !app_assoc, app_comm_cons. apply last_snoc.
Qed.

Lemma reset_hook_registration_witness :
  (In E_qemu_register_reset
      (calls (cortexm_mcu_realize ext_ok (cortexm_mcu_class ext_ok)
                (device cap_m3 None 0 0)))
   <-> is_Some (CM.kernel_filename (device cap_m3 None 0 0)))
  /\ (is_Some (CM.kernel_filename (device cap_m3 None 0 0)) ->
      last (calls (cortexm_mcu_realize ext_ok (cortexm_mcu_class ext_ok)
                     (device cap_m3 None 0 0)))
      = Some E_qemu_register_reset).
Proof.
  apply (reset_hook_registration ext_ok (device cap_m3 None 0 0)
           (realized ext_ok (device cap_m3 None 0 0))).
  vm_compute. reflexivity.
Defined.

(** ** The interrupt controller and the trace unit *)

Lemma pic_lines_length (d : DeviceState) (n : Z) :
  length (pic_lines d n) = Z.to_nat n.
Proof. unfold pic_lines. rewrite length_map, length_seq. reflexivity. Qed.

Lemma pic_lines_lookup (d : DeviceState) (n i : Z) :
  0 <= i < n -> pic_lines d n !! Z.to_nat i = Some (Irq_in d i).
Proof.
  intros Hi. unfold pic_lines. rewrite list_lookup_fmap.
  rewrite lookup_seq_lt by lia. cbn. rewrite Z2Nat.id by lia. reflexivity.
Qed.

(** The call that creates the NVIC. *)
Definition is_nvic_create (e : event) : bool :=
  match e with
  | E_qdev_create name => String.eqb name "armv7m_nvic"
  | _ => false
  end.

(** X6: a realize that returns has created one NVIC, told it the stored
    interrupt-line count, and filled the chip's [pic] table with exactly
    that many input lines of the NVIC: entry [i] is line [i], for every
    [i] from 0 up to the count, and there is no further entry.  The NVIC
    is handed to the core only: the chip's own [nvic] field is left as it
    was. *)
Theorem nvic_lines (ext : Externals) (st st' : CM.t) (errp : option Error) :
  outcome (cortexm_mcu_realize ext (cortexm_mcu_class ext) st)
  = Ok (st', errp) ->
  CM.nvic st' = CM.nvic st
  /\ 0 <= CM.num_irq st' <= 512
  /\ length (CM.pic st') = Z.to_nat (CM.num_irq st')
  /\ (forall i : Z, 0 <= i < CM.num_irq st' ->
        CM.pic st' !! Z.to_nat i = Some (Irq_in nvic_dev i))
  /\ In (E_qdev_prop_set_uint32 nvic_dev "num-irq" (CM.num_irq st'))
        (calls (cortexm_mcu_realize ext (cortexm_mcu_class ext) st))
  /\ length (List.filter is_nvic_create
               (calls (cortexm_mcu_realize ext (cortexm_mcu_class ext) st)))
     = 1%nat.
Proof.
  intros H.
  pose proof (cortexm_mcu_realize_Ok _ _ _ _ H)
    as (c0 & c1 & cpu & tail & _ & Hc1 & _ & _ & _ & _ & _ & _ & _ & _ & _ & _
        & Hirq & _).
  pose proof (cortexm_mcu_realize_Ok_log _ _ _ _ H)
    as (c' & Hc' & Hpic & Hnvic & Hpos & _ & _ & Hcalls).
  assert (Hle : CM.num_irq st' <= 512).
  { rewrite Hirq, resolve_num_irq_spec
      by (destruct (core_ceiling_cases (Cap.cortexm_model c1)) as [-> | ->];
          lia).
    unfold round_up_32.
    apply Z.le_trans with (32 * ((496 + 31) / 32));
      [|vm_compute; discriminate].
    apply Z.mul_le_mono_nonneg_l; [lia|]. apply Z.div_le_mono; [lia|].
    destruct (core_ceiling_cases (Cap.cortexm_model c1)) as [-> | ->]; lia. }
  split; [exact Hnvic|]. split; [lia|].
  split; [rewrite Hpic; apply pic_lines_length|].
  split; [intros i Hi; rewrite Hpic; apply pic_lines_lookup; exact Hi|].
  rewrite Hcalls, calls_memory_regions_create. unfold realize_tail.
  rewrite (wrap_u32_small (CM.num_irq st')) by lia.
  split.
  - apply in_cons, in_or_app. right. right. left. reflexivity.
  - assert (Himg : List.filter is_nvic_create
                     (calls (cortexm_mcu_image_load ext st')) = []).
    { apply filter_none. intros e Hin.
      apply calls_image_load_kinds in Hin.
      destruct Hin as [[f ->]|[f [a [m ->]]]]; reflexivity. }
    rewrite app_comm_cons.
    destruct errp; rewrite !List.filter_app, ?Himg, !length_app;
      destruct (Cap.has_itm c'), (CM.kernel_filename st'); reflexivity.
Qed.

Lemma nvic_lines_witness :
  let st := device cap_m3 None 0 0 in
  let st' := realized ext_ok st in
  CM.nvic st' = CM.nvic st
  /\ 0 <= CM.num_irq st' <= 512
  /\ length (CM.pic st') = Z.to_nat (CM.num_irq st')
  /\ (forall i : Z, 0 <= i < CM.num_irq st' ->
        CM.pic st' !! Z.to_nat i = Some (Irq_in nvic_dev i))
  /\ In (E_qdev_prop_set_uint32 nvic_dev "num-irq" (CM.num_irq st'))
        (calls (cortexm_mcu_realize ext_ok (cortexm_mcu_class ext_ok) st))
  /\ length (List.filter is_nvic_create
               (calls (cortexm_mcu_realize ext_ok (cortexm_mcu_class ext_ok)
                         st)))
     = 1%nat.
Proof.
  apply (nvic_lines ext_ok (device cap_m3 None 0 0)
           (realized ext_ok (device cap_m3 None 0 0)) None).
  vm_compute. reflexivity.
Defined.


(** An emulator in which the trace unit cannot be realized. *)
Definition ext_no_itm : Externals :=
  mkExternals (fun m => Some (ARMCPU_of m)) (Some (Error_of "itm: no backend"))
    false false (fun _ => 4096) (fun _ _ _ => 4096) 4 (fun _ => None)
    (fun n b => Some (Chr n b)).

(** A Cortex-M4 part with a trace unit. *)
Definition cap_m4_itm : Cap.t :=
  Cap.mk CORTEX_M4 256 64 false false CORTEX_M_FPU_TYPE_NONE true 64.


(** ** Sizes within the range of a C [int] *)

(** X8: for overrides and descriptor sizes that read as non-negative
    [int]s, the stored RAM size is the override when it is not 0 and the
    descriptor's size otherwise, cut down to 32768 KiB; the stored Flash
    size is the override when it is not 0 and the descriptor's size
    otherwise, with no ceiling. *)
Theorem sizes_resolved_in_range (ext : Externals) (st st' : CM.t)
  (errp : option Error) (c0 : Cap.t) :
  outcome (cortexm_mcu_realize ext (cortexm_mcu_class ext) st)
  = Ok (st', errp) ->
  CM.capabilities st = Some c0 ->
  0 <= CM.sram_size_kb st < 2 ^ 31 ->
  0 <= CM.flash_size_kb st < 2 ^ 31 ->
  0 <= Cap.sram_size_kb c0 < 2 ^ 31 ->
  0 <= Cap.flash_size_kb c0 < 2 ^ 31 ->
  CM.sram_size_kb st'
  = Z.min (32 * 1024)
      (if CM.sram_size_kb st =? 0 then Cap.sram_size_kb c0
       else CM.sram_size_kb st)
  /\ CM.flash_size_kb st'
     = (if CM.flash_size_kb st =? 0 then Cap.flash_size_kb c0
        else CM.flash_size_kb st)
  /\ 0 <= CM.sram_size_kb st' <= 32 * 1024.
Proof.
  intros H Hc Hs Hf Hcs Hcf.
  pose proof (cortexm_mcu_realize_Ok _ _ _ _ H)
    as (c0' & c' & cpu & tail & Hc0 & _ & _ & _ & _ & _ & _ & Hsram & Hflash
        & _ & _ & _ & _ & Hs' & Hf' & _).
  assert (c0' = c0) as -> by congruence.
  assert (Hres : resolve_sram_size_kb (to_int (CM.sram_size_kb st)) c'
                 = Z.min (32 * 1024)
                     (if CM.sram_size_kb st =? 0 then Cap.sram_size_kb c0
                      else CM.sram_size_kb st)).
  { unfold resolve_sram_size_kb. rewrite Hsram.
    rewrite !to_int_small by (unfold INT_MIN, INT_MAX; lia).
    destruct (CM.sram_size_kb st =? 0); cbn [negb];
      match goal with |- context [?a >? ?b] =>
        destruct (Z.gtb_spec a b) end; lia. }
  assert (Hresf : resolve_flash_size_kb (to_int (CM.flash_size_kb st)) c'
                  = (if CM.flash_size_kb st =? 0 then Cap.flash_size_kb c0
                     else CM.flash_size_kb st)).
  { unfold resolve_flash_size_kb. rewrite Hflash.
    rewrite !to_int_small by (unfold INT_MIN, INT_MAX; lia).
    destruct (CM.flash_size_kb st =? 0); reflexivity. }
  rewrite Hs', Hf', Hres, Hresf.
  rewrite !wrap_u32_small
    by (destruct (CM.sram_size_kb st =? 0), (CM.flash_size_kb st =? 0); lia).
  repeat split; destruct (CM.sram_size_kb st =? 0); lia.
Qed.

Lemma sizes_resolved_in_range_witness :
  let st := device cap_m3 None 65536 0 in
  CM.sram_size_kb (realized ext_ok st) = Z.min (32 * 1024) 65536
  /\ CM.flash_size_kb (realized ext_ok st) = 64
  /\ 0 <= CM.sram_size_kb (realized ext_ok st) <= 32 * 1024.
Proof.
  apply (sizes_resolved_in_range ext_ok (device cap_m3 None 65536 0)
           (realized ext_ok (device cap_m3 None 65536 0)) None cap_m3);
    first [vm_compute; reflexivity | cbn; lia].
Defined.

(** ** A model outside the enumeration *)

(** X9: a descriptor whose model is none of the eight known ones, with no
    [--cpu] override, ends the run with "Illegal cortexm_model <n>."
    before any call is made to the emulator. *)
Theorem illegal_cortexm_model (ext : Externals) (cm_class : CortexMClass)
  (st : CM.t) (c : Cap.t) (n : Z) :
  CM.capabilities st = Some c ->
  CM.cpu_model st = None ->
  Cap.cortexm_model c = CORTEX_M_other n ->
  cortexm_mcu_realize ext cm_class st
  = ([], Fatal ("Illegal cortexm_model " ++ fmt_d n ++ ".")).
Proof.
  intros Hc Harg Hm. unfold cortexm_mcu_realize.
  rewrite Hc, Harg, bind_ret_l. unfold hardwired. rewrite Hm.
  reflexivity.
Qed.

Lemma illegal_cortexm_model_witness :
  cortexm_mcu_realize ext_ok (cortexm_mcu_class ext_ok)
    (device (Cap.set_cortexm_model (CORTEX_M_other 8) cap_m3) None 0 0)
  = ([], Fatal "Illegal cortexm_model 8.").
Proof.
  apply (illegal_cortexm_model ext_ok (cortexm_mcu_class ext_ok)
           (device (Cap.set_cortexm_model (CORTEX_M_other 8) cap_m3) None 0 0)
           (Cap.set_cortexm_model (CORTEX_M_other 8) cap_m3) 8);
    reflexivity.
Defined.

(** ** Construction and the machine's settings *)

(** X10: [cortexm_mcu_init] gives the machine's image path and [--cpu]
    value to the device before realize, where the machine has them, and
    leaves the device's own otherwise.  So the chip it returns keeps the
    machine's image path, and was realized for the model the machine's
    [--cpu] value names. *)
Theorem construct_machine_settings (ext : Externals) (machine : MachineState)
  (dev s : CM.t) :
  outcome (cortexm_construct ext machine dev) = Ok s ->
  CM.kernel_filename s
  = match machine_kernel_filename machine with
    | Some f => Some f
    | None => CM.kernel_filename dev
    end
  /\ exists c' : Cap.t,
      CM.capabilities s = Some c'
      /\ CM.cpu_model s = Some (stored_cpu_model (Cap.cortexm_model c'))
      /\ match machine_cpu_model machine with
         | Some arg => accepted_cpu_model arg = Some (Cap.cortexm_model c')
         | None =>
             match CM.cpu_model dev with
             | Some arg => accepted_cpu_model arg = Some (Cap.cortexm_model c')
             | None =>
                 exists c0, CM.capabilities dev = Some c0
                            /\ Cap.cortexm_model c0 = Cap.cortexm_model c'
             end
         end.
Proof.
  intros Ho. unfold cortexm_construct in Ho.
  apply cortexm_mcu_init_Ok in Ho. destruct Ho as (dev' & Hr & Hdev').
  pose proof (cortexm_mcu_realize_Ok _ _ _ _ Hr)
    as (c0 & c' & cpu & tail & Hc0 & Hc' & Hmodel & _ & _ & _ & _ & _ & _
        & Hid & _ & _ & _ & _ & _ & Hkf & _).
  split.
  - rewrite Hkf, Hdev'.
    destruct (machine_cpu_model machine), (machine_kernel_filename machine);
      reflexivity.
  - exists c'. split; [exact Hc'|]. split; [exact Hid|].
    rewrite Hdev' in Hmodel, Hc0.
    destruct (machine_cpu_model machine) as [arg|].
    + exact Hmodel.
    + destruct (machine_kernel_filename machine);
        cbn [CM.cpu_model CM.set_kernel_filename CM.capabilities]
          in Hmodel, Hc0;
        (destruct (CM.cpu_model dev); [exact Hmodel|]);
        exists c0; (split; [exact Hc0|exact Hmodel]).
Qed.

Lemma construct_machine_settings_witness :
  let machine := mkMachineState (Some "app.elf") (Some "cortex-m7f") in
  let dev := device cap_m3 None 0 0 in
  let s := realized ext_ok
             (CM.set_cpu_model "cortex-m7f"
                (CM.set_kernel_filename "app.elf" dev)) in
  CM.kernel_filename s = Some "app.elf"
  /\ exists c' : Cap.t,
      CM.capabilities s = Some c'
      /\ CM.cpu_model s = Some (stored_cpu_model (Cap.cortexm_model c'))
      /\ accepted_cpu_model "cortex-m7f" = Some (Cap.cortexm_model c').
Proof.
  apply (construct_machine_settings ext_ok
           (mkMachineState (Some "app.elf") (Some "cortex-m7f"))
           (device cap_m3 None 0 0)).
  vm_compute. reflexivity.
Defined.

(** ** The core reset hook after realize *)

(** X11: on the state a realize returned, the core reset hook never
    fails: it reloads the image and then resets the very core the factory
    made for the stored identifier. *)
Theorem reset_after_realize (ext : Externals) (st st' : CM.t)
  (errp : option Error) :
  outcome (cortexm_mcu_realize ext (cortexm_mcu_class ext) st)
  = Ok (st', errp) ->
  exists (id : string) (cpu : ARMCPU),
    CM.cpu_model st' = Some id
    /\ cpu_arm_init ext id = Some cpu
    /\ cortexm_reset st' = ([E_rom_reset; E_cpu_reset cpu], Ok tt).
Proof.
  intros H.
  pose proof (cortexm_mcu_realize_Ok _ _ _ _ H)
    as (c0 & c' & cpu & tail & _ & _ & _ & _ & _ & _ & _ & _ & _
        & Hid & Hinit & Hcpu & _).
  exists (stored_cpu_model (Cap.cortexm_model c')), cpu.
  split; [exact Hid|]. split; [exact Hinit|].
  unfold cortexm_reset. rewrite Hcpu. reflexivity.
Qed.

Lemma reset_after_realize_witness :
  exists (id : string) (cpu : ARMCPU),
    CM.cpu_model (realized ext_ok (device cap_m3 None 0 0)) = Some id
    /\ cpu_arm_init ext_ok id = Some cpu
    /\ cortexm_reset (realized ext_ok (device cap_m3 None 0 0))
       = ([E_rom_reset; E_cpu_reset cpu], Ok tt).
Proof.
  apply (reset_after_realize ext_ok (device cap_m3 None 0 0)
           (realized ext_ok (device cap_m3 None 0 0)) None).
  vm_compute. reflexivity.
Defined.

(** ** Serial ports and the host's port count *)

(** The name [create_usart] gives the null backend of port [index]. *)
Definition chardev_name (index : Z) : string :=
  snprintf 10 ("serial" ++ fmt_d index).

(** The object [create_usart] makes for port [index]. *)
Definition usart_dev (index : Z) : DeviceState :=
  Dev_object (snprintf 10 ("usart[" ++ usart_digit index ++ "]"))
             TYPE_STM32_USART.

(** The calls [create_usart] makes before it looks at the host's ports. *)
Definition usart_prologue (index : Z) : list event :=
  [ E_object_new (snprintf 10 ("usart[" ++ usart_digit index ++ "]"))
                 TYPE_STM32_USART;
    E_object_property_set_int (usart_dev index) index "port-index";
    E_qdev_prop_set_ptr (usart_dev index) "capabilities";
    E_qdev_prop_set_ptr (usart_dev index) "rcc";
    E_qdev_prop_set_ptr (usart_dev index) "nvic" ].

(** The host can back port [index]: the index is below its port count,
    and it has a backend configured for it or can make a null one. *)
Definition port_ok (ext : Externals) (index : Z) : bool :=
  (to_int index <? MAX_SERIAL_PORTS ext)
  && match serial_hds ext index with
     | Some _ => true
     | None =>
         match qemu_chr_new ext (chardev_name index) "null" with
         | Some _ => true
         | None => false
         end
     end.

Lemma geb_ltb (a b : Z) : (a >=? b) = negb (a <? b).
Proof.
  destruct (Z.geb_spec a b), (Z.ltb_spec a b); try reflexivity; lia.
Qed.

(** X12: a serial port whose index is at or above the host's port count
    stops the run with "Cannot assign usart <index>: QEMU supports only
    <count> ports".  The port object has been created and given its
    properties by then, but it is never realized and never entered in the
    chip's table. *)
Theorem create_usart_port_limit (ext : Externals) (s : STM32.t) (index : Z) :
  MAX_SERIAL_PORTS ext <= to_int index ->
  create_usart ext s index
  = (usart_prologue index,
     Fatal ("Cannot assign usart " ++ fmt_d index
            ++ ": QEMU supports only " ++ fmt_d (MAX_SERIAL_PORTS ext)
            ++ " ports"))
  /\ ~ In (E_object_realize (usart_dev index))
          (calls (create_usart ext s index)).
Proof.
  intros H.
  assert (E : create_usart ext s index
              = (usart_prologue index,
                 Fatal ("Cannot assign usart " ++ fmt_d index
                        ++ ": QEMU supports only "
                        ++ fmt_d (MAX_SERIAL_PORTS ext) ++ " ports"))).
  { unfold create_usart. cbv zeta.
    destruct (Z.geb_spec (to_int index) (MAX_SERIAL_PORTS ext)) as [_|Hlt];
      [reflexivity|lia]. }
  split; [exact E|]. rewrite E. cbn [calls fst usart_prologue].
  intros Hin. repeat (destruct Hin as [Hin|Hin]; [discriminate Hin|]).
  exact Hin.
Qed.

Lemma create_usart_port_limit_witness :
  create_usart ext_ok (stm32_device scap_none) STM32_UART_5
  = (usart_prologue STM32_UART_5,
     Fatal "Cannot assign usart 4: QEMU supports only 4 ports")
  /\ ~ In (E_object_realize (usart_dev STM32_UART_5))
          (calls (create_usart ext_ok (stm32_device scap_none) STM32_UART_5)).
Proof.
  apply (create_usart_port_limit ext_ok (stm32_device scap_none) STM32_UART_5).
  vm_compute. discriminate.
Defined.

Lemma create_usart_outcome (ext : Externals) (s : STM32.t) (index : Z) :
  if port_ok ext index
  then outcome (create_usart ext s index) = Ok (usart_step true index s)
  else exists msg, outcome (create_usart ext s index) = Fatal msg.
Proof.
  unfold port_ok, create_usart, chardev_name. cbv zeta.
  repeat rewrite outcome_bind_emit. rewrite geb_ltb.
  destruct (to_int index <? MAX_SERIAL_PORTS ext); cbn [negb andb];
    [|eexists; reflexivity].
  rewrite outcome_bind.
  destruct (serial_hds ext index) as [chr|]; [reflexivity|].
  cbn [outcome bind emit ret fst snd].
  destruct (qemu_chr_new ext _ "null"); [reflexivity|].
  eexists. reflexivity.
Qed.

(** One block [if (capabilities->has_usartN) create_usart (...)] goes
    through. *)
Definition usart_block_ok (ext : Externals) (flag : bool) (index : Z) : bool :=
  negb flag || port_ok ext index.

Lemma usart_block_outcome (ext : Externals) (flag : bool) (index : Z)
  (s : STM32.t) :
  if usart_block_ok ext flag index
  then outcome (when flag (fun state => create_usart ext state index) s)
       = Ok (usart_step flag index s)
  else exists msg,
      outcome (when flag (fun state => create_usart ext state index) s)
      = Fatal msg.
Proof.
  unfold usart_block_ok. destruct flag; cbn [negb orb when];
    [apply create_usart_outcome|reflexivity].
Qed.

(** Every enabled serial port can be backed by the host. *)
Definition usarts_ok (ext : Externals) (c : STM32Cap.t) : bool :=
  usart_block_ok ext (STM32Cap.has_usart1 c) STM32_USART_1
  && usart_block_ok ext (STM32Cap.has_usart2 c) STM32_USART_2
  && usart_block_ok ext (STM32Cap.has_usart3 c) STM32_USART_3
  && usart_block_ok ext (STM32Cap.has_uart4 c) STM32_UART_4
  && usart_block_ok ext (STM32Cap.has_uart5 c) STM32_UART_5
  && usart_block_ok ext (STM32Cap.has_usart6 c) STM32_USART_6.

Lemma realize_usarts_outcome (ext : Externals) (c : STM32Cap.t) (s : STM32.t) :
  if usarts_ok ext c
  then outcome (realize_usarts ext c s) = Ok (usart_chain c s)
  else exists msg, outcome (realize_usarts ext c s) = Fatal msg.
Proof.
  unfold usarts_ok, realize_usarts, usart_chain. cbv zeta.
  repeat match goal with
  | |- context [usart_block_ok ext ?f ?i] =>
      match goal with
      | |- context [when f (fun state => create_usart ext state i) ?s0] =>
          let H := fresh "H" in
          pose proof (usart_block_outcome ext f i s0) as H;
          destruct (usart_block_ok ext f i);
          [ first [ rewrite outcome_bind, H | exact H ]
          | destruct H as [msg H]; exists msg;
            first [ rewrite outcome_bind, H; reflexivity | exact H ] ]
      end
  end.
Qed.

(** X13: once the parent realize has returned without error on a device
    that has its descriptor, the vendor realize returns a chip exactly
    when the host can back every enabled serial port; the GPIO banks and
    the fixed peripherals never make it fail. *)
Theorem vendor_realize_returns (ext : Externals)
  (parent_realize : CM.t -> M (CM.t * option Error)) (st : STM32.t)
  (cm' : CM.t) (c : STM32Cap.t) :
  outcome (parent_realize (STM32.parent_obj st)) = Ok (cm', None) ->
  STM32.param_capabilities st = Some c ->
  (usarts_ok ext c = true ->
   outcome (stm32_mcu_realize_callback ext parent_realize st)
   = Ok (usart_chain c
           (gpio_chain c
              (fixed_state c
                 (STM32.set_capabilities c (STM32.set_parent_obj cm' st)))),
         None))
  /\ (usarts_ok ext c = false ->
      exists msg,
        outcome (stm32_mcu_realize_callback ext parent_realize st)
        = Fatal msg).
Proof.
  intros Hp Hc.
  assert (E : outcome (stm32_mcu_realize_callback ext parent_realize st)
              = match outcome
                        (realize_usarts ext c
                           (gpio_chain c
                              (fixed_state c
                                 (STM32.set_capabilities c
                                    (STM32.set_parent_obj cm' st))))) with
                | Ok s => Ok (s, None)
                | Fatal msg => Fatal msg
                end).
  { unfold stm32_mcu_realize_callback.
    rewrite outcome_bind, Hp. cbn [fst snd].
    change (STM32.param_capabilities (STM32.set_parent_obj cm' st))
      with (STM32.param_capabilities st).
    rewrite Hc.
    rewrite outcome_bind, outcome_realize_fixed.
    rewrite outcome_bind, outcome_realize_gpios.
    rewrite outcome_bind.
    destruct (outcome (realize_usarts ext c _)); reflexivity. }
  pose proof (realize_usarts_outcome ext c
                (gpio_chain c
                   (fixed_state c
                      (STM32.set_capabilities c
                         (STM32.set_parent_obj cm' st))))) as Hu.
  split; intros Hok; rewrite Hok in Hu; rewrite E.
  - rewrite Hu. reflexivity.
  - destruct Hu as [msg ->]. exists msg. reflexivity.
Qed.

(** GPIO A and C and all six serial ports. *)
Definition scap_six : STM32Cap.t :=
  stm32cap true true true [true; false; true]
    [true; true; true; true; true; true].

Lemma vendor_realize_returns_witness :
  let st := stm32_device scap_six in
  let cm' := realized ext_ok (STM32.parent_obj st) in
  (usarts_ok ext_ok scap_six = true ->
   outcome (stm32_mcu_realize_callback ext_ok
              (cm_device_parent_realize ext_ok) st)
   = Ok (usart_chain scap_six
           (gpio_chain scap_six
              (fixed_state scap_six
                 (STM32.set_capabilities scap_six
                    (STM32.set_parent_obj cm' st)))),
         None))
  /\ (usarts_ok ext_ok scap_six = false ->
      exists msg,
        outcome (stm32_mcu_realize_callback ext_ok
                   (cm_device_parent_realize ext_ok) st)
        = Fatal msg).
Proof.
  apply (vendor_realize_returns ext_ok (cm_device_parent_realize ext_ok)
           (stm32_device scap_six)
           (realized ext_ok (STM32.parent_obj (stm32_device scap_six)))
           scap_six);
    vm_compute; reflexivity.
Defined.

(** With four host ports, a part with six serial ports cannot be built;
    with its first four only, it can. *)
Example six_ports_on_a_four_port_host :
  usarts_ok ext_ok scap_six = false
  /\ outcome (stm32_construct ext_ok machine0 (stm32_device scap_six))
     = Fatal "Cannot assign usart 4: QEMU supports only 4 ports"
  /\ usarts_ok ext_ok
       (stm32cap true true true [true] [true; true; true; true]) = true.
Proof. vm_compute. repeat split. Qed.

(** ** The parent realize comes first *)

(** X14: the vendor realize makes no call of its own unless the parent
    realize returned without error: when the parent fails or hands back an
    error, the calls are the parent's, no chip is returned, and the
    error, if any, is passed on. *)
Theorem vendor_realize_after_parent (ext : Externals)
  (parent_realize : CM.t -> M (CM.t * option Error)) (st : STM32.t) :
  (forall cm', outcome (parent_realize (STM32.parent_obj st))
               <> Ok (cm', None)) ->
  calls (stm32_mcu_realize_callback ext parent_realize st)
  = calls (parent_realize (STM32.parent_obj st))
  /\ outcome (stm32_mcu_realize_callback ext parent_realize st)
     = match outcome (parent_realize (STM32.parent_obj st)) with
       | Ok (cm', e) => Ok (STM32.set_parent_obj cm' st, e)
       | Fatal msg => Fatal msg
       end
  /\ forall st', outcome (stm32_mcu_realize_callback ext parent_realize st)
                 <> Ok (st', None).
Proof.
  intros Hp. unfold stm32_mcu_realize_callback.
  rewrite calls_bind, outcome_bind.
  destruct (outcome (parent_realize (STM32.parent_obj st)))
    as [[cm' [e|]]|msg] eqn:Ho; cbn [fst snd].
  - cbn. rewrite app_nil_r. repeat split. intros st' [=].
  - exfalso. exact (Hp cm' eq_refl).
  - rewrite app_nil_r. repeat split. intros st' [=].
Qed.

Lemma vendor_realize_after_parent_witness :
  let st := STM32.new (device cap_m4_itm None 0 0) (Some scap_ac) in
  calls (stm32_mcu_realize_callback ext_no_itm
           (cm_device_parent_realize ext_no_itm) st)
  = calls (cm_device_parent_realize ext_no_itm (STM32.parent_obj st))
  /\ outcome (stm32_mcu_realize_callback ext_no_itm
                (cm_device_parent_realize ext_no_itm) st)
     = match outcome (cm_device_parent_realize ext_no_itm
                        (STM32.parent_obj st)) with
       | Ok (cm', e) => Ok (STM32.set_parent_obj cm' st, e)
       | Fatal msg => Fatal msg
       end
  /\ forall st', outcome (stm32_mcu_realize_callback ext_no_itm
                            (cm_device_parent_realize ext_no_itm) st)
                 <> Ok (st', None).
Proof.
  apply (vendor_realize_after_parent ext_no_itm
           (cm_device_parent_realize ext_no_itm)
           (STM32.new (device cap_m4_itm None 0 0) (Some scap_ac))).
  intros cm'. vm_compute. discriminate.
Defined.

(** ** The order in which the vendor realize builds the chip *)

(** The indices of the flags that are set, counting from [i], in
    ascending order. *)
Fixpoint enabled_from (i : Z) (flags : list bool) : list Z :=
  match flags with
  | [] => []
  | f :: fs => (if f then [i] else []) ++ enabled_from (i + 1) fs
  end.


Definition exti_dev : DeviceState := Dev_object "exti" TYPE_STM32_EXTI.














(** The run on a part with GPIO A and C and USART 1: the vendor's
    calls. *)
Example vendor_calls_a_c :
  let st := stm32_device scap_ac in
  drop (length (calls (cm_device_parent_realize ext_ok (STM32.parent_obj st))))
       (calls (stm32_mcu_realize_callback ext_ok
                 (cm_device_parent_realize ext_ok) st))
  = [ E_memory_region_add_subregion 0x08000000
        (mkMemoryRegion "mem-flash-alias" (MR_ALIAS "cortexm-mem-flash" 0)
                        0x10000 true);
      E_object_new "rcc" TYPE_STM32_RCC;
      E_object_property_set_int (Dev_object "rcc" TYPE_STM32_RCC) 8000000
        "hsi-freq-hz";
      E_object_property_set_int (Dev_object "rcc" TYPE_STM32_RCC) 40000
        "lsi-freq-hz";
      E_object_property_set_int (Dev_object "rcc" TYPE_STM32_RCC) 0
        "hse-freq-hz";
      E_object_property_set_int (Dev_object "rcc" TYPE_STM32_RCC) 0
        "lse-freq-hz";
      E_object_realize (Dev_object "rcc" TYPE_STM32_RCC);
      E_object_new "flash" TYPE_STM32_FLASH;
      E_object_realize (Dev_object "flash" TYPE_STM32_FLASH);
      E_object_new "exti" TYPE_STM32_EXTI;
      E_object_realize exti_dev;
      E_gpio_create 0;
      E_gpio_create 2;
      E_object_new "usart[1]" TYPE_STM32_USART;
      E_object_property_set_int (usart_dev 0) 0 "port-index";
      E_qdev_prop_set_ptr (usart_dev 0) "capabilities";
      E_qdev_prop_set_ptr (usart_dev 0) "rcc";
      E_qdev_prop_set_ptr (usart_dev 0) "nvic";
      E_qemu_chr_new "serial0" "null";
      E_qdev_prop_set_chr (usart_dev 0) (Chr "serial0" "null");
      E_object_realize (usart_dev 0) ].
Proof. vm_compute. reflexivity. Qed.

(** ** Reset of a chip as realize built it *)

(** Every device a table holds is the one [g] names for its index. *)
Definition indexed_by (g : Z -> DeviceState) (off : Z)
  (l : list (option DeviceState)) : Prop :=
  forall (j : nat) (d : DeviceState),
    l !! j = Some (Some d) -> d = g (off + Z.of_nat j).

Lemma devices_of_indexed (g : Z -> DeviceState)
  (l : list (option DeviceState)) (off : Z) :
  indexed_by g off l ->
  devices_of l = map g (enabled_from off (present_vec l)).
Proof.
  revert off. induction l as [|o l IH]; intros off H; [reflexivity|].
  assert (Hl : indexed_by g (off + 1) l).
  { intros j d Hj. rewrite (H (S j) d Hj). f_equal. lia. }
  specialize (IH (off + 1) Hl).
  unfold devices_of in *. cbn [omap present_vec map enabled_from].
  destruct o as [d|]; cbn [id option_bind mbind].
  - cbn. rewrite (H 0%nat d eq_refl), Z.add_0_r.
    f_equal. exact IH.
  - cbn. exact IH.
Qed.

Lemma indexed_replicate (g : Z -> DeviceState) (n : nat) :
  indexed_by g 0 (replicate n None).
Proof.
  intros j d Hj. apply lookup_replicate in Hj. destruct Hj as [Hj _].
  discriminate Hj.
Qed.

Lemma indexed_insert (g : Z -> DeviceState) (l : list (option DeviceState))
  (i : Z) :
  0 <= i -> indexed_by g 0 l ->
  indexed_by g 0 (<[Z.to_nat i := Some (g i)]> l).
Proof.
  intros Hi H j d Hj.
  destruct (decide (Z.to_nat i = j)) as [<-|Hne].
  - apply list_lookup_insert_Some in Hj.
    destruct Hj as [(_ & [= <-] & _)|(Hne & _)]; [|congruence].
    f_equal. lia.
  - rewrite list_lookup_insert_ne in Hj by exact Hne. exact (H j d Hj).
Qed.

Lemma indexed_gpio_chain (c : STM32Cap.t) (s : STM32.t) :
  STM32.gpio s = replicate STM32_MAX_GPIO None ->
  indexed_by Dev_gpio 0 (STM32.gpio (gpio_chain c s)).
Proof.
  intros Hs.
  assert (Hstep : forall f i t s0, 0 <= i ->
             indexed_by Dev_gpio 0 (STM32.gpio s0) ->
             indexed_by Dev_gpio 0 (STM32.gpio (gpio_step f i t s0))).
  { intros [] i t s0 Hi H; [|exact H].
    apply (indexed_insert Dev_gpio _ i Hi H). }
  unfold gpio_chain. repeat (apply Hstep; [lia|]).
  cbn [STM32.gpio STM32.set_num_gpio]. rewrite Hs.
  apply indexed_replicate.
Qed.

Lemma indexed_usart_chain (c : STM32Cap.t) (s : STM32.t) :
  STM32.usart s = replicate STM32_MAX_USART None ->
  indexed_by usart_dev 0 (STM32.usart (usart_chain c s)).
Proof.
  intros Hs.
  assert (Hstep : forall f i s0, 0 <= i ->
             indexed_by usart_dev 0 (STM32.usart s0) ->
             indexed_by usart_dev 0 (STM32.usart (usart_step f i s0))).
  { intros [] i s0 Hi H; [|exact H].
    apply (indexed_insert usart_dev _ i Hi H). }
  unfold usart_chain. repeat (apply Hstep; [lia|]).
  rewrite Hs. apply indexed_replicate.
Qed.

Lemma take_present (l : list (option DeviceState)) (flags : list bool)
  (n : nat) :
  present_vec l = flags -> length flags = n -> take n l = l.
Proof.
  intros <- Hn. apply take_ge. unfold present_vec in Hn.
  rewrite length_map in Hn. lia.
Qed.

Lemma gpio_table_chain (c : STM32Cap.t) (s : STM32.t) :
  STM32.gpio s = replicate STM32_MAX_GPIO None ->
  devices_of (take STM32_MAX_GPIO (STM32.gpio (gpio_chain c s)))
  = map Dev_gpio (enabled_from 0 (gpio_flags c)).
Proof.
  intros Hs.
  rewrite (take_present _ (gpio_flags c))
    by (apply present_gpio_chain || reflexivity; exact Hs).
  rewrite (devices_of_indexed Dev_gpio _ 0 (indexed_gpio_chain c s Hs)).
  rewrite (present_gpio_chain c s Hs). reflexivity.
Qed.

Lemma usart_table_chain (c : STM32Cap.t) (s : STM32.t) :
  STM32.usart s = replicate STM32_MAX_USART None ->
  devices_of (take STM32_MAX_USART (STM32.usart (usart_chain c s)))
  = map usart_dev (enabled_from 0 (usart_flags c)).
Proof.
  intros Hs.
  rewrite (take_present _ (usart_flags c))
    by (apply present_usart_chain || reflexivity; exact Hs).
  rewrite (devices_of_indexed usart_dev _ 0 (indexed_usart_chain c s Hs)).
  rewrite (present_usart_chain c s Hs). reflexivity.
Qed.

(** X16: on a chip that the vendor realize built from a fresh device, the
    vendor reset callback calls the parent's reset and then resets the
    clock/reset controller, the Flash controller, the enabled GPIO banks
    in ascending index order and the enabled serial ports in ascending
    index order, each exactly once.  The power controller, the
    system-configuration controller and EXTI are never reset, although
    EXTI always exists. *)
Theorem reset_of_realized_chip (ext : Externals)
  (parent_realize : CM.t -> M (CM.t * option Error)) (st st' : STM32.t)
  (c : STM32Cap.t) :
  outcome (stm32_mcu_realize_callback ext parent_realize st) = Ok (st', None) ->
  STM32.param_capabilities st = Some c ->
  fresh st ->
  stm32_mcu_reset_callback st'
  = (E_parent_reset TYPE_STM32_MCU
       :: E_device_reset (Dev_object "rcc" TYPE_STM32_RCC)
       :: E_device_reset (Dev_object "flash" TYPE_STM32_FLASH)
       :: map E_device_reset
            (map Dev_gpio (enabled_from 0 (gpio_flags c))
             ++ map usart_dev (enabled_from 0 (usart_flags c))),
     Ok tt)
  /\ STM32.exti st' = Some exti_dev
  /\ ~ In (E_device_reset exti_dev) (calls (stm32_mcu_reset_callback st'))
  /\ ~ In (E_device_reset (Dev_object "pwr" TYPE_STM32_PWR))
          (calls (stm32_mcu_reset_callback st'))
  /\ ~ In (E_device_reset (Dev_object "syscfg" TYPE_STM32_SYSCFG))
          (calls (stm32_mcu_reset_callback st')).
Proof.
  intros H Hc (Hrcc & Hflash & Hpwr & Hsys & Hexti & Hgpio & Husart).
  apply stm32_mcu_realize_Ok in H.
  destruct H as (cm' & c' & vendor & _ & Hc' & -> & _).
  assert (c' = c) as -> by congruence.
  set (s0 := STM32.set_capabilities c (STM32.set_parent_obj cm' st)).
  destruct (fields_usart_chain c (gpio_chain c (fixed_state c s0)))
    as (U1 & U2 & U3 & U4 & U5).
  destruct (fields_gpio_chain c (fixed_state c s0))
    as (G1 & G2 & G3 & G4 & G5 & G6).
  destruct (fields_fixed_state c s0) as (F1 & F2 & F3 & F4 & F5 & F6 & F7).
  assert (E : stm32_mcu_reset_callback
                (usart_chain c (gpio_chain c (fixed_state c s0)))
              = (E_parent_reset TYPE_STM32_MCU
                   :: E_device_reset (Dev_object "rcc" TYPE_STM32_RCC)
                   :: E_device_reset (Dev_object "flash" TYPE_STM32_FLASH)
                   :: map E_device_reset
                        (map Dev_gpio (enabled_from 0 (gpio_flags c))
                         ++ map usart_dev (enabled_from 0 (usart_flags c))),
                 Ok tt)).
  { unfold stm32_mcu_reset_callback. rewrite !for_upto_reset.
    rewrite U1, G1, F1, U2, G2, F2.
    rewrite gpio_usart_chain, gpio_table_chain by (rewrite F6; exact Hgpio).
    rewrite usart_table_chain by (rewrite G6, F7; exact Husart).
    rewrite map_app. reflexivity. }
  split; [exact E|]. split; [rewrite U5, G5, F5; reflexivity|].
  rewrite E. cbn [calls fst].
  assert (Hno : forall d,
             (forall i, d <> Dev_gpio i) -> (forall i, d <> usart_dev i) ->
             d <> Dev_object "rcc" TYPE_STM32_RCC ->
             d <> Dev_object "flash" TYPE_STM32_FLASH ->
             ~ In (E_device_reset d)
                  (E_parent_reset TYPE_STM32_MCU
                   :: E_device_reset (Dev_object "rcc" TYPE_STM32_RCC)
                   :: E_device_reset (Dev_object "flash" TYPE_STM32_FLASH)
                   :: map E_device_reset
                        (map Dev_gpio (enabled_from 0 (gpio_flags c))
                         ++ map usart_dev
                              (enabled_from 0 (usart_flags c))))).
  { intros d Hg Hu Hr Hf [Hin|[Hin|[Hin|Hin]]]; try discriminate Hin.
    - injection Hin as Hin. exact (Hr (eq_sym Hin)).
    - injection Hin as Hin. exact (Hf (eq_sym Hin)).
    - apply in_map_iff in Hin. destruct Hin as (d' & [= ->] & Hin).
      apply in_app_or in Hin. destruct Hin as [Hin|Hin];
        apply in_map_iff in Hin; destruct Hin as (i & Hi & _).
      + exact (Hg i (eq_sym Hi)).
      + exact (Hu i (eq_sym Hi)). }
  repeat split; apply Hno; try discriminate; intros i; unfold usart_dev;
    try discriminate; intros [= _ Hty]; vm_compute in Hty; discriminate Hty.
Qed.

Lemma reset_of_realized_chip_witness :
  let st' := constructed ext_ok scap_ac in
  stm32_mcu_reset_callback st'
  = (E_parent_reset TYPE_STM32_MCU
       :: E_device_reset (Dev_object "rcc" TYPE_STM32_RCC)
       :: E_device_reset (Dev_object "flash" TYPE_STM32_FLASH)
       :: map E_device_reset
            (map Dev_gpio (enabled_from 0 (gpio_flags scap_ac))
             ++ map usart_dev (enabled_from 0 (usart_flags scap_ac))),
     Ok tt)
  /\ STM32.exti st' = Some exti_dev
  /\ ~ In (E_device_reset exti_dev) (calls (stm32_mcu_reset_callback st'))
  /\ ~ In (E_device_reset (Dev_object "pwr" TYPE_STM32_PWR))
          (calls (stm32_mcu_reset_callback st'))
  /\ ~ In (E_device_reset (Dev_object "syscfg" TYPE_STM32_SYSCFG))
          (calls (stm32_mcu_reset_callback st')).
Proof.
  apply (reset_of_realized_chip ext_ok (cm_device_parent_realize ext_ok)
           (stm32_device scap_ac) (constructed ext_ok scap_ac) scap_ac).
  - vm_compute. reflexivity.
  - reflexivity.
  - apply fresh_stm32_device.
Defined.
